(** * Background simulation jobs of corona.py

    A shallow embedding of the job subsystem of [corona.py]: the worker
    process [SimulationThread.run] with its throttled progress callback,
    the polling callback [update_simulation_results] and the launch
    callback [run_simulation_callback]; and of the page callbacks
    [url_callback], [interventions_to_rows] and [interventions_callback].

    Conventions of the embedding.
    - [time.time()] reads the field [clock] of the state; seconds are exact
      rationals, so [0.5] is [1 # 2] and [timeout=30] is [30].
    - Every effect the module performs on the process pool and on the cache,
      and every process it starts, is applied to the state and appended to
      the field [trace], in program order.  [print] calls are not modelled.
    - Exceptions are results: each callback returns an outcome together with
      the state it leaves behind. *)

From Stdlib Require Import QArith Lqa Ascii String OrderedTypeEx.
From stdpp Require Import gmap strings list sorting.

(** ** Python data *)

(** Values kept in the variable store of a session. *)
Inductive pyval :=
| PyNone
| PyBool (b : bool)
| PyInt (n : Z)
| PyStr (s : string).

(** The Flask [session] dict.  The named simulation parameters are the map
    [vars]; the key ['thread_id'], which only ever receives
    [process.uuid] (a [str]), is the field [thread_id], [None] when the key
    is missing. *)
Record Session := {
  vars : gmap string pyval;
  thread_id : option string }.

(** [session['thread_id'] = uuid] *)
Definition set_thread_id (id : string) (s : Session) : Session :=
  {| vars := vars s; thread_id := Some id |}.

(** A [SimulationThread] object as [__init__] leaves it: the [variables]
    keyword argument and a fresh [uuid].  The attribute [last_results] is
    created by [run] and lives in the worker state below. *)
Record SimulationThread := {
  variables : Session;
  uuid : string }.

(** Objects stored by the cache: the [True] flags and the result frames. *)
Inductive cache_value (DataFrame : Type) :=
| Flag (b : bool)
| Frame (df : DataFrame).
Arguments Flag {DataFrame} b.
Arguments Frame {DataFrame} df.

(** Python truth of a string, as in [if existing_thread_id:]. *)
Definition truthy_str (s : string) : bool :=
  match s with
  | EmptyString => false
  | String _ _ => true
  end.

(** [x < y] on rationals, as a boolean. *)
Definition Qlt_bool (x y : Q) : bool := negb (Qle_bool y x).

(** ** Cache keys *)

(** The last character of a string; it tells the three kinds of key apart. *)
Fixpoint last_ascii (s : string) : option ascii :=
  match s with
  | EmptyString => None
  | String c EmptyString => Some c
  | String _ r => last_ascii r
  end.

(** ['%s-results' % func_hash] *)
Definition results_key (func_hash : string) : string := func_hash +:+ "-results".

(** ['%s-finished' % func_hash] *)
Definition finished_key (func_hash : string) : string := func_hash +:+ "-finished".

(** ['thread-%s-kill' % existing_thread_id] *)
Definition kill_key (id : string) : string := "thread-" +:+ id +:+ "-kill".

Section Corona.

(** The result object of the simulation (a pandas frame), opaque here. *)
Context {DataFrame : Type}.

(** [calc.utils.generate_cache_key(simulate_individuals, var_store=...)], a
    function of the variable store; without [var_store] the variables are
    those of the current session.  The module [calc] is imported, and the
    hash is left open. *)
Variable generate_cache_key : Session -> string.

(** The timeout the cache applies when [cache.set] is given none. *)
Variable default_timeout : Q.

(** [settings.RESTRICT_TO_PRESET_SCENARIOS] *)
Variable RESTRICT_TO_PRESET_SCENARIOS : bool.

(** [variables.set_variable(name, value)] acting on the session; the module
    [variables] is imported, and the function is left open. *)
Variable set_variable : string -> pyval -> Session -> Session.

(** [simulate_individuals(only_if_in_cache=True)]: the frame the simulation
    has in the cache for the variables of the session, if any, read at the
    given time; [None] otherwise.  The lookup belongs to [calc] and is left
    open. *)
Variable simulate_individuals_only_if_in_cache :
  Session -> gmap string (cache_value DataFrame * Q) -> Q -> option DataFrame.

(** ** State and effects *)

Inductive event :=
| PoolInsert (ident : Z) (ref : string)       (* process_pool[ident] = self *)
| PoolDelete (ident : Z)                      (* del process_pool[ident] *)
| CacheSet (key : string) (value : cache_value DataFrame) (timeout : option Q)
| CacheGet (key : string)
| Simulate (store : Session)                  (* simulate_individuals is entered *)
| ProcessStart (ref : string).                (* process.start() *)

(** What the code of one process can see and change.  [process_pool] maps a
    process identity to a reference to the thread object, named by its
    [uuid]; a [cache] entry is a value with the time at which it expires;
    [started] lists the processes started so far. *)
Record World := {
  process_pool : gmap Z string;
  cache : gmap string (cache_value DataFrame * Q);
  session : Session;
  started : list SimulationThread;
  clock : Q;
  trace : list event }.

Definition log (e : event) (w : World) : World :=
  {| process_pool := process_pool w; cache := cache w; session := session w;
     started := started w; clock := clock w; trace := trace w ++ [e] |}.

Definition with_pool (p : gmap Z string) (w : World) : World :=
  {| process_pool := p; cache := cache w; session := session w;
     started := started w; clock := clock w; trace := trace w |}.

Definition with_cache (c : gmap string (cache_value DataFrame * Q)) (w : World) : World :=
  {| process_pool := process_pool w; cache := c; session := session w;
     started := started w; clock := clock w; trace := trace w |}.

Definition with_session (s : Session) (w : World) : World :=
  {| process_pool := process_pool w; cache := cache w; session := s;
     started := started w; clock := clock w; trace := trace w |}.

Definition with_started (l : list SimulationThread) (w : World) : World :=
  {| process_pool := process_pool w; cache := cache w; session := session w;
     started := l; clock := clock w; trace := trace w |}.

Definition with_clock (t : Q) (w : World) : World :=
  {| process_pool := process_pool w; cache := cache w; session := session w;
     started := started w; clock := t; trace := trace w |}.

(** Modelled from the spec: [set(key, value, ttl)] of the cache of
    [common.cache], which is not part of the source.  The value is stored
    with its expiry, [ttl] after the write, and the write is recorded in the
    trace with the [timeout] argument as the caller gave it; without that
    argument the cache applies [default_timeout]. *)
Definition cache_set (key : string) (value : cache_value DataFrame)
    (timeout : option Q) (w : World) : World :=
  let ttl := default default_timeout timeout in
  log (CacheSet key value timeout)
      (with_cache (<[key := (value, (clock w + ttl)%Q)]> (cache w)) w).

(** Modelled from the spec: what [get(key)] of the cache of [common.cache]
    returns at the current time, the stored value before its expiry and
    absent ([None]) from then on or when nothing is stored. *)
Definition cache_read (key : string) (w : World) : option (cache_value DataFrame) :=
  match cache w !! key with
  | Some (value, expires) => if Qlt_bool (clock w) expires then Some value else None
  | None => None
  end.

(** [cache.get(key)]: the value read, and the read recorded in the trace. *)
Definition cache_get (key : string) (w : World) : option (cache_value DataFrame) * World :=
  (cache_read key w, log (CacheGet key) w).

(** ** The worker: [SimulationThread.run] *)

(** The state of a running worker: the world and [self.last_results]. *)
Record Worker := {
  world : World;
  last_results : option Q }.

(** The test [force or self.last_results is None or
    now - self.last_results > 0.5]; [or] does not evaluate the difference
    when [last_results] is [None]. *)
Definition publish_due (force : bool) (last : option Q) (now : Q) : bool :=
  force ||
  match last with
  | None => true
  | Some t => Qlt_bool (1 # 2) (now - t)
  end.

(** The closure [step_callback(df, force=False)] defined in [run]. *)
Definition step_callback (func_hash : string) (df : DataFrame) (force : bool)
    (s : Worker) : bool * Worker :=
  let now := clock (world s) in
  if publish_due force (last_results s) now then
    (true, {| world := cache_set (results_key func_hash) (Frame df) (Some 30%Q) (world s);
              last_results := Some now |})
  else
    (true, s).

(** What [simulate_individuals] does as seen from [run]: it lets time pass
    and reports progress through the callback, then returns a frame, raises
    [ExecutionInterrupted], or raises something else.  The callback answers
    [True] every time, so the sequence of reports does not depend on it. *)
Inductive sim_action :=
| Elapse (dt : Q)
| Report (df : DataFrame) (force : bool).

Inductive sim_end :=
| Returns (df : DataFrame)
| RaisesInterrupted
| RaisesOther.

Record Simulation := {
  actions : list sim_action;
  ending : sim_end }.

Definition sim_step (func_hash : string) (s : Worker) (a : sim_action) : Worker :=
  match a with
  | Elapse dt =>
      {| world := with_clock (clock (world s) + dt)%Q (world s);
         last_results := last_results s |}
  | Report df force => snd (step_callback func_hash df force s)
  end.

Definition sim_steps (func_hash : string) (l : list sim_action) (s : Worker) : Worker :=
  fold_left (sim_step func_hash) l s.

(** How [run] is left. *)
Inductive run_exit :=
| Finished                (* the body ran to its last statement *)
| Uncaught                (* an exception other than ExecutionInterrupted *)
| KeyError.               (* del process_pool[self.ident] found no entry *)

(** [process_pool[self.ident] = self], the hash, [self.last_results = None]. *)
Definition run_enter (self : SimulationThread) (ident : Z) (w : World) : Worker :=
  {| world := log (PoolInsert ident (uuid self))
                  (with_pool (<[ident := uuid self]> (process_pool w)) w);
     last_results := None |}.

(** The [try] statement up to the point where [simulate_individuals] ends. *)
Definition run_simulate (self : SimulationThread) (sim : Simulation) (s : Worker) : Worker :=
  let func_hash := generate_cache_key (variables self) in
  sim_steps func_hash (actions sim)
    {| world := log (Simulate (variables self)) (world s);
       last_results := last_results s |}.

(** [cache.set('%s-finished' % func_hash, True)] and
    [del process_pool[self.ident]]. *)
Definition run_leave (self : SimulationThread) (ident : Z) (s : Worker) : run_exit * World :=
  let func_hash := generate_cache_key (variables self) in
  let w := cache_set (finished_key func_hash) (Flag true) None (world s) in
  match process_pool w !! ident with
  | Some _ => (Finished, log (PoolDelete ident) (with_pool (delete ident (process_pool w)) w))
  | None => (KeyError, w)
  end.

Definition run (self : SimulationThread) (ident : Z) (sim : Simulation)
    (w : World) : run_exit * World :=
  let func_hash := generate_cache_key (variables self) in
  let s := run_simulate self sim (run_enter self ident w) in
  match ending sim with
  | RaisesOther => (Uncaught, world s)
  | RaisesInterrupted => run_leave self ident s
  | Returns df => run_leave self ident (snd (step_callback func_hash df true s))
  end.

(** ** The polling callback: [update_simulation_results] *)

Inductive poll_result :=
| PreventUpdate                                         (* raise PreventUpdate() *)
| Outputs (df : cache_value DataFrame) (disabled : bool) (* [render_results(df), disabled] *)
| ValueError.                                           (* bool() of a frame *)

(** Python truth of what [cache.get] returned, as in
    [if cache.get('%s-finished' % func_hash):].  A missing entry is [None]
    and false; a frame has no truth value. *)
Definition truthy_cached (v : option (cache_value DataFrame)) : option bool :=
  match v with
  | None => Some false
  | Some (Flag b) => Some b
  | Some (Frame _) => None
  end.

Definition update_simulation_results (w : World) : poll_result * World :=
  match thread_id (session w) with
  | None => (PreventUpdate, w)
  | Some _ =>
      let func_hash := generate_cache_key (session w) in
      let cache_key := results_key func_hash in
      let (df, w1) := cache_get cache_key w in
      match df with
      | None => (PreventUpdate, w1)
      | Some df =>
          let (fin, w2) := cache_get (finished_key func_hash) w1 in
          match truthy_cached fin with
          | Some disabled => (Outputs df disabled, w2)
          | None => (ValueError, w2)
          end
      end
  end.

(** ** The launch callback: [run_simulation_callback] *)

Inductive launch_result :=
| Rendered (df : DataFrame)               (* render_results(df) *)
| Busy                                    (* the service-busy message *)
| Polling (interval max_intervals : Z).   (* dcc.Interval(...) and the output div *)

(** [set_variable('simulation_days', simulation_days)] and, when [n_clicks]
    is true, [set_variable('random_seed', n_clicks)]. *)
Definition store_inputs (n_clicks : option Z) (simulation_days : Z) (w : World) : World :=
  let w1 := with_session (set_variable "simulation_days" (PyInt simulation_days) (session w)) w in
  match n_clicks with
  | Some n =>
      if (n =? 0)%Z then w1
      else with_session (set_variable "random_seed" (PyInt n) (session w1)) w1
  | None => w1
  end.

(** [cache.set('thread-%s-kill' % existing_thread_id, True)] under
    [if existing_thread_id:]. *)
Definition kill_existing (w : World) : World :=
  match thread_id (session w) with
  | Some existing_thread_id =>
      if truthy_str existing_thread_id
      then cache_set (kill_key existing_thread_id) (Flag true) None w
      else w
  | None => w
  end.

(** [new_uuid] is the value of [str(uuid.uuid4())] in [__init__]. *)
Definition run_simulation_callback (n_clicks : option Z) (simulation_days : Z)
    (new_uuid : string) (w : World) : launch_result * World :=
  let w1 := store_inputs n_clicks simulation_days w in
  match simulate_individuals_only_if_in_cache (session w1) (cache w1) (clock w1) with
  | Some df => (Rendered df, w1)
  | None =>
      if RESTRICT_TO_PRESET_SCENARIOS then (Busy, w1)
      else
        let w2 := kill_existing w1 in
        let process := {| variables := session w2; uuid := new_uuid |} in
        let w3 := with_session (set_thread_id (uuid process) (session w2)) w2 in
        let w4 := log (ProcessStart (uuid process))
                      (with_started (started w3 ++ [process]) w3) in
        (Polling 500 60, w4)
  end.

(** ** Predicates used in the statements *)

(** The condition under which [step_callback] publishes. *)
Definition accepted (force : bool) (s : Worker) : Prop :=
  force = true \/
  last_results s = None \/
  exists t, last_results s = Some t /\ (1 # 2 < clock (world s) - t)%Q.

(** A write the callback can make for the reports of [l]. *)
Definition report_write (func_hash : string) (l : list sim_action)
    (e : event) : Prop :=
  exists df force,
    In (Report df force) l /\
    e = CacheSet (results_key func_hash) (Frame df) (Some 30%Q).

(** An event that is a cache write. *)
Definition is_cache_set (e : event) : Prop :=
  exists key value timeout, e = CacheSet key value timeout.

(** The cache writes a run makes: frames under the results key with
    [timeout=30], and [True] under the finished key with no timeout. *)
Definition worker_write (func_hash : string) (e : event) : Prop :=
  (exists df, e = CacheSet (results_key func_hash) (Frame df) (Some 30%Q)) \/
  e = CacheSet (finished_key func_hash) (Flag true) None.

(** The results entry after the simulation phase is the one written by the
    last write of the phase, or the one from before when nothing was
    written. *)
Definition holds_last_write (func_hash : string) (evs : list event)
    (before after : option (cache_value DataFrame * Q)) : Prop :=
  match last evs with
  | None => after = before
  | Some e =>
      exists df t,
        e = CacheSet (results_key func_hash) (Frame df) (Some 30%Q) /\
        after = Some (Frame df, (t + 30)%Q)
  end.

End Corona.

(** ** A concrete configuration

    Used to run the model on sample inputs. *)

Module Sample.

(** Frames are stood for by integers. *)
Definition frame : Type := Z.

(** A hash that tells sessions apart by their number of days. *)
Definition hash (s : Session) : string :=
  match vars s !! "simulation_days" with
  | Some (PyInt 45) => "sim45"
  | _ => "sim"
  end.

(** Modelled from the spec: [variables.set_variable], which is not part of the
    source.  The variable store is a mapping of named simulation parameters
    to values; setting a variable stores the value under its name. *)
Definition set_variable (name : string) (value : pyval) (s : Session) : Session :=
  {| vars := <[name := value]> (vars s); thread_id := thread_id s |}.

(** Modelled from the spec: [simulate_individuals(only_if_in_cache=True)] of
    [calc.simulation], which is not part of the source.  It returns the
    non-expired cache entry for the result of the session's fingerprint, and
    [None] when there is none. *)
Definition cached_frame (s : Session) (c : gmap string (cache_value frame * Q))
    (now : Q) : option frame :=
  match c !! results_key (hash s) with
  | Some (Frame df, expires) => if Qlt_bool now expires then Some df else None
  | _ => None
  end.

(** The timeout Flask-Caching applies when it is configured with none. *)
Definition five_minutes : Q := 300.

Definition days45 : gmap string pyval := {[ "simulation_days" := PyInt 45 ]}.

Definition unbound : Session := {| vars := days45; thread_id := None |}.

Definition bound : Session := {| vars := days45; thread_id := Some "job-a" |}.

(** A world at second 100 with the given session and cache. *)
Definition at_100 (s : Session) (c : gmap string (cache_value frame * Q)) : @World frame :=
  {| process_pool := ∅; cache := c; session := s; started := [];
     clock := 100; trace := [] |}.

(** The thread object started for [unbound], and its process identity. *)
Definition job_a : SimulationThread := {| variables := unbound; uuid := "job-a" |}.
Definition pid_a : Z := 4242.

(** A simulation that reports frames 1, 2 and 3 at seconds 100, 100.2 and
    100.7 and ends as [e] at second 101. *)
Definition three_reports (e : @sim_end frame) : @Simulation frame :=
  {| actions := [Report 1%Z false; Elapse (1 # 5); Report 2%Z false;
                 Elapse (1 # 2); Report 3%Z false; Elapse (3 # 10)];
     ending := e |}.

(** A simulation that reports frame 1 a hundred times, 2 ms apart, and
    returns frame 2. *)
Definition hundred_reports : @Simulation frame :=
  {| actions := concat (replicate 100 [Report 1%Z false; Elapse (2 # 1000)]);
     ending := Returns 2%Z |}.

(** A cache holding frame 4 for the hash of [days45] until second 131, and
    the same with the finished flag. *)
Definition snapshot_only : gmap string (cache_value frame * Q) :=
  {[ results_key "sim45" := (Frame 4%Z, 131%Q) ]}.

Definition snapshot_finished : gmap string (cache_value frame * Q) :=
  <[ finished_key "sim45" := (Flag true, 401%Q) ]> snapshot_only.

End Sample.

(** ** Measures of a simulation script *)

Section Script.

Context {DataFrame : Type}.

(** The seconds a script lets pass. *)
Fixpoint total_elapsed (l : list (@sim_action DataFrame)) : Q :=
  match l with
  | [] => 0
  | Elapse dt :: r => (dt + total_elapsed r)%Q
  | Report _ _ :: r => total_elapsed r
  end.

(** A script whose clock never runs backwards and whose reports all leave
    [force] at its default [False]. *)
Definition unforced (a : @sim_action DataFrame) : Prop :=
  match a with
  | Elapse dt => (0 <= dt)%Q
  | Report _ force => force = false
  end.

(** The number of effects a step of the program added to the trace. *)
Definition added (before after : @World DataFrame) : nat :=
  length (trace after) - length (trace before).

End Script.

(** * The page callbacks *)

(** ** Strings *)

(** [s[n:]] *)
Fixpoint string_drop (n : nat) (s : string) : string :=
  match n, s with
  | O, _ => s
  | S _, EmptyString => EmptyString
  | S m, String _ r => string_drop m r
  end.

(** [s.lstrip(c)] for a single character [c] *)
Fixpoint lstrip (c : ascii) (s : string) : string :=
  match s with
  | EmptyString => EmptyString
  | String a r => if Ascii.eqb a c then lstrip c r else s
  end.

(** [s.rstrip(c)] for a single character [c] *)
Fixpoint rstrip (c : ascii) (s : string) : string :=
  match s with
  | EmptyString => EmptyString
  | String a r =>
      match rstrip c r with
      | EmptyString => if Ascii.eqb a c then EmptyString else String a EmptyString
      | String b r' => String a (String b r')
      end
  end.

(** [s.strip(c)] for a single character [c] *)
Definition strip (c : ascii) (s : string) : string := rstrip c (lstrip c s).

(** A run of [n] slashes. *)
Fixpoint slashes (n : nat) : string :=
  match n with
  | O => EmptyString
  | S m => String "/" (slashes m)
  end.

(** ** The language links: [url_callback] *)

Module Url.

Inductive result :=
| Page                (* return render_page() *)
| PreventUpdate       (* raise dash.exceptions.PreventUpdate() *)
| AttributeError.     (* None has no startswith *)

(** The two statements under [if settings.URL_PREFIX:].  [None] stands for
    the [AttributeError] of [pathname.startswith] on [None]. *)
Definition without_prefix (URL_PREFIX : option string) (pathname : option string)
    : option (option string) :=
  match URL_PREFIX with
  | Some prefix =>
      if truthy_str prefix then
        match pathname with
        | Some p =>
            Some (Some (if String.prefix prefix p
                        then string_drop (String.length prefix) p else p))
        | None => None
        end
      else Some pathname
  | None => Some pathname
  end.

(** [pathname = pathname or ''] and [pathname = pathname.strip('/')] *)
Definition normalize (pathname : option string) : string :=
  strip "/" (match pathname with Some p => p | None => EmptyString end).

(** [url_callback(pathname)].  [URL_PREFIX] is [settings.URL_PREFIX],
    [has_request_context] what [flask.has_request_context()] answers, and
    [language] the value of [session.get('language')], which the callback
    may replace. *)
Definition url_callback (URL_PREFIX : option string) (has_request_context : bool)
    (pathname : option string) (language : option string) : result * option string :=
  match without_prefix URL_PREFIX pathname with
  | None => (AttributeError, language)
  | Some pathname =>
      let pathname := normalize pathname in
      if (String.eqb pathname "en" || String.eqb pathname "fi")
         && has_request_context
         && negb (bool_decide (language = Some pathname))
      then (Page, Some pathname)
      else (PreventUpdate, language)
  end.

End Url.

(** ** The interventions table *)

(** [sorted(l, key=key)] for string keys.  Python's sort is stable, and the
    stable arrangement of a list is unique; it is computed here by insertion
    from the right, an element going before the first one whose key is not
    smaller. *)
Fixpoint insert_by {A : Type} (key : A -> string) (x : A) (l : list A) : list A :=
  match l with
  | [] => [x]
  | y :: r => if String.leb (key x) (key y) then x :: y :: r else y :: insert_by key x r
  end.

Fixpoint sorted {A : Type} (key : A -> string) (l : list A) : list A :=
  match l with
  | [] => []
  | x :: r => insert_by key x (sorted key r)
  end.

(** [key a <= key b], the order [sorted] establishes. *)
Definition key_le {A : Type} (key : A -> string) (a b : A) : Prop :=
  String.leb (key a) (key b) = true.

Module Interventions.

(** An entry of [common.interventions.INTERVENTIONS], as far as it is read:
    [i.type], [i.label], and for each of [i.parameters] the value of
    [getattr(p, 'unit', None)]. *)
Record Intervention := {
  type : string;
  label : string;
  parameters : list (option string) }.

(** An element [iv] of the variable ['interventions']: the list
    [[iv[0], iv[1]] + iv[2:]]. *)
Record Iv := {
  iv0 : string;
  iv1 : string;
  iv_rest : list pyval }.

(** A row [dict(date=..., label=..., value=..., name=..., unit=...)]. *)
Record Row := {
  row_date : string;
  row_label : string;
  row_value : pyval;
  row_name : string;
  row_unit : option string }.

(** The keys of a table row that [interventions_callback] reads: ['name'],
    ['date'] and ['value']. *)
Record TableRow := {
  name : string;
  date : string;
  value : pyval }.

Definition table_row (r : Row) : TableRow :=
  {| name := row_name r; date := row_date r; value := row_value r |}.

(** A value as the callback stores it: not a string. *)
Definition converted (val : pyval) : Prop := forall s, val <> PyStr s.

(** An intervention as the callback stores it: [[name, date, val]]. *)
Definition stored_iv (iv : Iv) : Prop :=
  exists val, iv_rest iv = [val] /\ converted val.

Inductive exception := PreventUpdate | TypeError | ValueError.

Inductive result (A : Type) :=
| Ok (a : A)
| Raise (e : exception).
Arguments Ok {A} a.
Arguments Raise {A} e.

Definition bind {A B : Type} (c : result A) (k : A -> result B) : result B :=
  match c with
  | Ok a => k a
  | Raise e => Raise e
  end.

Notation "x <- c ;; k" := (bind c (fun x => k))
  (at level 100, c at next level, right associativity).

(** The variables the two functions read and write.  Modelled from the spec:
    the variable store of the module [variables], which is not part of the
    source: a mapping of named simulation parameters to values, where
    [get_variable] returns what [set_variable] stored. *)
Record Variables := {
  interventions : list Iv;
  start_date : string;
  simulation_days : Z }.

Definition set_interventions (ivs : list Iv) (v : Variables) : Variables :=
  {| interventions := ivs; start_date := start_date v;
     simulation_days := simulation_days v |}.

Section Callback.

(** [common.interventions.INTERVENTIONS] *)
Variable INTERVENTIONS : list Intervention.

(** What [reset_variable('interventions')] restores. *)
Variable default_interventions : list Iv.

(** [date.fromisoformat(s)] as the ordinal of the day, [None] when it raises
    [ValueError]; [d.isoformat()]; [int(s)] for a string, [None] when it
    raises [ValueError]. *)
Variable fromisoformat : string -> option Z.
Variable isoformat : Z -> string.
Variable int : string -> option Z.

(** The inner [for i in INTERVENTIONS: if i.type == iv[0]: break]. *)
Definition find_intervention (t : string) : option Intervention :=
  find (fun i => String.eqb (type i) t) INTERVENTIONS.

(** One turn of the loop of [interventions_to_rows]: no row for a type that
    is not in [INTERVENTIONS]. *)
Definition to_row (iv : Iv) : option Row :=
  match find_intervention (iv0 iv) with
  | None => None
  | Some i =>
      let val := match iv_rest iv with v :: _ => v | [] => PyNone end in
      let unit := match parameters i with p :: _ => p | [] => None end in
      Some {| row_date := iv1 iv; row_label := label i; row_value := val;
              row_name := type i; row_unit := unit |}
  end.

(** [interventions_to_rows()], for the value [ivs] of
    [get_variable('interventions')]. *)
Definition interventions_to_rows (ivs : list Iv) : list Row :=
  omap to_row (sorted iv1 ivs).

(** The chain of tests on [new_id] and [new_val].  The comparison of
    [new_id] with the pair [('test-with-contact-tracing',
    'test-only-severe-symptoms')] is false for every string and for [None],
    so its branch is never taken.  An ordering test on [None] raises
    [TypeError]. *)
Definition check_new (new_id : option string) (new_val : option Z) : result pyval :=
  if bool_decide (new_id = Some "test-all-with-symptoms") then Ok PyNone
  else if bool_decide (new_id = Some "limit-mobility") then
    match new_val with
    | None => Raise TypeError
    | Some x => if (100 <? x)%Z || (x <? 0)%Z then Raise PreventUpdate else Ok (PyInt x)
    end
  else if bool_decide (new_id = Some "limit-mass-gatherings")
       || bool_decide (new_id = Some "import-infections")
       || bool_decide (new_id = Some "build-new-icu-units")
       || bool_decide (new_id = Some "build-new-hospital-beds") then
    match new_val with
    | None => Raise TypeError
    | Some x => if (x <? 0)%Z then Raise PreventUpdate else Ok (PyInt x)
    end
  else Raise PreventUpdate.

(** [date.fromisoformat] on an argument that may be [None]. *)
Definition parse_date (s : option string) : result Z :=
  match s with
  | None => Raise TypeError
  | Some s =>
      match fromisoformat s with
      | Some d => Ok d
      | None => Raise ValueError
      end
  end.

(** The body of [if add_intervention_clicks is not None and c_id ==
    'new-intervention-add':], giving the rows after [rows.append]. *)
Definition add_row (rows : list TableRow) (new_date new_id : option string)
    (new_val : option Z) (v : Variables) : result (list TableRow) :=
  d <- parse_date new_date ;;
  sstart <- parse_date (Some (start_date v)) ;;
  if (d <? sstart)%Z || (sstart + simulation_days v <? d)%Z then Raise PreventUpdate
  else
    new_val <- check_new new_id new_val ;;
    Ok (rows ++ [{| name := match new_id with Some n => n | None => EmptyString end;
                    date := isoformat d; value := new_val |}]).

(** The loop [for row in sorted(rows, key=lambda x: x['date'])] with its
    conversion of string values. *)
Fixpoint rows_to_ivs (rows : list TableRow) : result (list Iv) :=
  match rows with
  | [] => Ok []
  | row :: r =>
      val <- match value row with
             | PyStr s =>
                 match int s with
                 | Some n => Ok (PyInt n)
                 | None => Raise ValueError
                 end
             | val => Ok val
             end ;;
      ivs <- rows_to_ivs r ;;
      Ok ({| iv0 := name row; iv1 := date row; iv_rest := [val] |} :: ivs)
  end.

(** [interventions_callback].  [triggered] is the component id
    [ctx.triggered[0]['prop_id'].split('.')[0]], [None] when [ctx.triggered]
    is false; the timestamp argument [ts] is not used. *)
Definition interventions_callback (triggered : option string)
    (reset_clicks add_intervention_clicks : option Z) (rows : list TableRow)
    (new_date new_id : option string) (new_val : option Z) (v : Variables)
    : result (list Row) * Variables :=
  let is_c_id (c : string) := bool_decide (triggered = Some c) in
  let reset := bool_decide (is_Some reset_clicks) && is_c_id "interventions-reset-defaults" in
  let v1 := if reset then set_interventions default_interventions v else v in
  let appended :=
    if bool_decide (is_Some add_intervention_clicks) && is_c_id "new-intervention-add"
    then add_row rows new_date new_id new_val v1
    else Ok rows in
  match appended with
  | Raise e => (Raise e, v1)
  | Ok rows1 =>
      let changed :=
        bool_decide (is_Some add_intervention_clicks) && is_c_id "new-intervention-add"
        || is_c_id "interventions-table" in
      if negb reset && changed then
        match rows_to_ivs (sorted date rows1) with
        | Raise e => (Raise e, v1)
        | Ok ivs =>
            let v2 := set_interventions ivs v1 in
            (Ok (interventions_to_rows (interventions v2)), v2)
        end
      else (Ok (interventions_to_rows (interventions v1)), v1)
  end.

End Callback.

End Interventions.

(** ** Sample data for the page callbacks *)

Module PageSample.

Import Interventions.

Definition INTERVENTIONS : list Intervention :=
  [ {| type := "limit-mobility"; label := "Limit population mobility";
       parameters := [Some "%"] |};
    {| type := "test-all-with-symptoms"; label := "Test all with symptoms";
       parameters := [] |};
    {| type := "import-infections"; label := "Import infections";
       parameters := [Some "infections"] |} ].

(** The dates of the samples with the ordinals of their days; every other
    string is taken not to be a date. *)
Definition fromisoformat (s : string) : option Z :=
  if String.eqb s "2020-02-18" then Some 737473%Z
  else if String.eqb s "2020-03-01" then Some 737485%Z
  else if String.eqb s "2020-03-15" then Some 737499%Z
  else if String.eqb s "2020-12-24" then Some 737783%Z
  else None.

Definition isoformat (d : Z) : string :=
  if (d =? 737473)%Z then "2020-02-18"
  else if (d =? 737485)%Z then "2020-03-01"
  else if (d =? 737499)%Z then "2020-03-15"
  else "2020-12-24".

(** The numerals of the samples; every other string is taken not to be a
    number. *)
Definition int (s : string) : option Z :=
  if String.eqb s "50" then Some 50%Z
  else if String.eqb s "5" then Some 5%Z
  else None.

Definition defaults : list Iv :=
  [ {| iv0 := "test-all-with-symptoms"; iv1 := "2020-02-20"; iv_rest := [] |} ].

Definition mobility : Iv :=
  {| iv0 := "limit-mobility"; iv1 := "2020-03-15"; iv_rest := [PyInt 20] |}.

Definition imports : Iv :=
  {| iv0 := "import-infections"; iv1 := "2020-03-01"; iv_rest := [PyInt 5] |}.

Definition stored : Variables :=
  {| interventions := [mobility; imports]; start_date := "2020-02-18";
     simulation_days := 45 |}.

(** The table after the value of the first row was edited to the text 50. *)
Definition edited : list TableRow :=
  [ {| name := "limit-mobility"; date := "2020-03-15"; value := PyStr "50" |};
    {| name := "import-infections"; date := "2020-03-01"; value := PyInt 5 |} ].

End PageSample.

(** * Properties *)

Lemma Qlt_bool_iff (x y : Q) : Qlt_bool x y = true <-> (x < y)%Q.
Proof.
  unfold Qlt_bool. rewrite negb_true_iff. split.
  - intros Hb. apply Qnot_le_lt. intros Hle.
    apply Qle_bool_iff in Hle. congruence.
  - intros Hlt. destruct (Qle_bool y x) eqn:Hb; [|reflexivity].
    apply Qle_bool_iff in Hb. exfalso. exact (Qlt_not_le _ _ Hlt Hb).
Qed.

Lemma Qlt_bool_false_iff (x y : Q) : Qlt_bool x y = false <-> (y <= x)%Q.
Proof. unfold Qlt_bool. rewrite negb_false_iff. apply Qle_bool_iff. Qed.

Lemma snoc_neq_self {A} (l : list A) (x : A) : l ++ [x] <> l.
Proof.
  intros H. apply (f_equal length) in H.
  rewrite length_app in H. simpl in H. lia.
Qed.

Lemma append_empty (a b : string) : a +:+ b = EmptyString -> b = EmptyString.
Proof. destruct a; cbn; [auto | discriminate]. Qed.

Lemma last_ascii_app (a b : string) :
  b <> EmptyString -> last_ascii (a +:+ b) = last_ascii b.
Proof.
  intros Hb. induction a as [|c a IH]; [reflexivity|].
  change (last_ascii (String c (a +:+ b)) = last_ascii b).
  destruct (a +:+ b) eqn:E.
  - apply append_empty in E. contradiction.
  - exact IH.
Qed.

Lemma results_key_last h : last_ascii (results_key h) = Some "s"%char.
Proof. unfold results_key. now rewrite last_ascii_app. Qed.

Lemma finished_key_last h : last_ascii (finished_key h) = Some "d"%char.
Proof. unfold finished_key. now rewrite last_ascii_app. Qed.

Lemma kill_key_last id : last_ascii (kill_key id) = Some "l"%char.
Proof.
  unfold kill_key. rewrite last_ascii_app.
  - now rewrite last_ascii_app.
  - intros E. apply append_empty in E. discriminate.
Qed.

Lemma finished_key_not_results h h' : finished_key h <> results_key h'.
Proof.
  intros E. apply (f_equal last_ascii) in E.
  rewrite finished_key_last, results_key_last in E. discriminate.
Qed.

Lemma kill_key_not_results id h : kill_key id <> results_key h.
Proof.
  intros E. apply (f_equal last_ascii) in E.
  rewrite kill_key_last, results_key_last in E. discriminate.
Qed.

Lemma kill_key_not_finished id h : kill_key id <> finished_key h.
Proof.
  intros E. apply (f_equal last_ascii) in E.
  rewrite kill_key_last, finished_key_last in E. discriminate.
Qed.

Section Properties.

Set Default Proof Using "Type".

Context {DataFrame : Type}.
Variable generate_cache_key : Session -> string.
Variable default_timeout : Q.
Variable RESTRICT_TO_PRESET_SCENARIOS : bool.
Variable set_variable : string -> pyval -> Session -> Session.
Variable simulate_individuals_only_if_in_cache :
  Session -> gmap string (cache_value DataFrame * Q) -> Q -> option DataFrame.

Implicit Types (w : @World DataFrame) (s : @Worker DataFrame) (df : DataFrame).

(** ** The progress callback *)


Lemma publish_due_accepted force s :
  publish_due force (last_results s) (clock (world s)) = true <-> accepted force s.
Proof.
  unfold publish_due, accepted. split.
  - destruct force; [now left|]. simpl.
    destruct (last_results s) as [t|]; [|now right; left].
    intros H. right; right. exists t. split; [reflexivity|].
    now apply Qlt_bool_iff.
  - intros [-> | [-> | (t & -> & Hlt)]].
    + reflexivity.
    + now rewrite orb_true_r.
    + apply Qlt_bool_iff in Hlt. rewrite Hlt. now rewrite orb_true_r.
Qed.

(** C1.  A call [step_callback(df, force)] appends a write of [df] under
    ['%s-results' % func_hash] (timeout 30) to the trace if and only if
    [force] is true, or no write was accepted before, or more than half a
    second of the worker's clock has passed since the last accepted write.
    An accepted call performs that [cache.set] and records the clock in
    [last_results]; a rejected call leaves the whole worker state, and so
    every cache key, unchanged.  The callback answers [True] either way. *)
Theorem step_callback_throttle (func_hash : string) df (force : bool) s :
  let r := step_callback default_timeout func_hash df force s in
  let write := CacheSet (results_key func_hash) (Frame df) (Some 30%Q) in
  fst r = true /\
  (trace (world (snd r)) = trace (world s) ++ [write] <-> accepted force s) /\
  (accepted force s ->
     world (snd r) =
       cache_set default_timeout (results_key func_hash) (Frame df) (Some 30%Q) (world s) /\
     cache (world (snd r)) =
       <[results_key func_hash := (Frame df, (clock (world s) + 30)%Q)]> (cache (world s)) /\
     last_results (snd r) = Some (clock (world s))) /\
  (~ accepted force s -> snd r = s).
Proof.
  intros r write. subst r write. unfold step_callback.
  destruct (publish_due force (last_results s) (clock (world s))) eqn:Hdue.
  - apply publish_due_accepted in Hdue. simpl.
    split; [reflexivity|]. split; [|split].
    + split; [intros _; exact Hdue | reflexivity].
    + intros _. repeat split.
    + intros Hno. exfalso. exact (Hno Hdue).
  - assert (Hno : ~ accepted force s).
    { intros Ha. apply publish_due_accepted in Ha. congruence. }
    simpl. split; [reflexivity|]. split; [|split].
    + split.
      * intros Heq. symmetry in Heq. exfalso. exact (snoc_neq_self _ _ Heq).
      * intros Ha. exfalso. exact (Hno Ha).
    + intros Ha. exfalso. exact (Hno Ha).
    + reflexivity.
Qed.


(** ** The simulation phase of a worker *)


Lemma sim_step_frame func_hash s a :
  let s' := sim_step default_timeout func_hash s a in
  process_pool (world s') = process_pool (world s) /\
  session (world s') = session (world s) /\
  started (world s') = started (world s) /\
  (forall k, k <> results_key func_hash ->
     cache (world s') !! k = cache (world s) !! k).
Proof.
  destruct a as [dt | df force]; simpl.
  - repeat split; reflexivity.
  - unfold step_callback.
    destruct (publish_due _ _ _); simpl; repeat split; try reflexivity.
    intros k Hk. now rewrite lookup_insert_ne.
Qed.

Lemma sim_step_trace func_hash s a :
  let s' := sim_step default_timeout func_hash s a in
  trace (world s') = trace (world s) \/
  exists df force, a = Report df force /\
    trace (world s') =
      trace (world s) ++ [CacheSet (results_key func_hash) (Frame df) (Some 30%Q)].
Proof.
  destruct a as [dt | df force]; simpl.
  - now left.
  - unfold step_callback.
    destruct (publish_due _ _ _); simpl; [right | now left].
    now exists df, force.
Qed.


Lemma sim_steps_frame func_hash l s :
  let s' := sim_steps default_timeout func_hash l s in
  process_pool (world s') = process_pool (world s) /\
  session (world s') = session (world s) /\
  started (world s') = started (world s) /\
  (forall k, k <> results_key func_hash ->
     cache (world s') !! k = cache (world s) !! k).
Proof.
  revert s. induction l as [|a l IH]; intros s; simpl.
  - repeat split; reflexivity.
  - destruct (IH (sim_step default_timeout func_hash s a)) as (Hp & Hs & Hst & Hc).
    destruct (sim_step_frame func_hash s a) as (Hp' & Hs' & Hst' & Hc').
    unfold sim_steps in *. simpl in *.
    repeat split; try congruence.
    intros k Hk. rewrite Hc by exact Hk. now apply Hc'.
Qed.

Lemma sim_steps_trace func_hash l s :
  exists evs,
    trace (world (sim_steps default_timeout func_hash l s)) = trace (world s) ++ evs /\
    Forall (report_write func_hash l) evs.
Proof.
  revert s. induction l as [|a l IH]; intros s.
  - exists []. simpl. split; [now rewrite app_nil_r | constructor].
  - destruct (IH (sim_step default_timeout func_hash s a)) as (evs & Ht & Hall).
    assert (Hweak : Forall (report_write func_hash (a :: l)) evs).
    { eapply Forall_impl; [exact Hall|].
      intros e (df & force & Hin & He). exists df, force. split; [now right | exact He]. }
    unfold sim_steps in *. simpl.
    destruct (sim_step_trace func_hash s a) as [Hsame | (df & force & Ha & Happ)];
      simpl in *.
    + exists evs. split; [congruence | exact Hweak].
    + eexists (_ :: evs). split.
      * rewrite Ht, Happ. now rewrite <- app_assoc.
      * constructor; [|exact Hweak]. exists df, force. split; [now left | reflexivity].
Qed.


Lemma sim_step_publishes func_hash s a :
  let s' := sim_step default_timeout func_hash s a in
  (trace (world s') = trace (world s) /\
   cache (world s') !! results_key func_hash = cache (world s) !! results_key func_hash) \/
  (exists df force, a = Report df force /\
     trace (world s') =
       trace (world s) ++ [CacheSet (results_key func_hash) (Frame df) (Some 30%Q)] /\
     cache (world s') !! results_key func_hash =
       Some (Frame df, (clock (world s) + 30)%Q)).
Proof.
  destruct a as [dt | df force]; simpl.
  - now left.
  - unfold step_callback.
    destruct (publish_due _ _ _); simpl; [right | now left].
    exists df, force. repeat split. apply lookup_insert_eq.
Qed.


Lemma sim_steps_published func_hash l s :
  exists evs,
    trace (world (sim_steps default_timeout func_hash l s)) = trace (world s) ++ evs /\
    Forall (report_write func_hash l) evs /\
    holds_last_write func_hash evs
      (cache (world s) !! results_key func_hash)
      (cache (world (sim_steps default_timeout func_hash l s)) !! results_key func_hash).
Proof.
  revert s. induction l as [|a l IH]; intros s.
  - exists []. simpl. split; [now rewrite app_nil_r|]. split; [constructor | reflexivity].
  - destruct (IH (sim_step default_timeout func_hash s a)) as (evs & Ht & Hall & Hlast).
    assert (Hweak : Forall (report_write func_hash (a :: l)) evs).
    { eapply Forall_impl; [exact Hall|].
      intros e (df & force & Hin & He). exists df, force. split; [now right | exact He]. }
    unfold sim_steps in *. simpl fold_left.
    destruct (sim_step_publishes func_hash s a)
      as [(Hsame & Hcache) | (df & force & Ha & Happ & Hcache)]; cbv zeta in *.
    + exists evs. split; [congruence|]. split; [exact Hweak|].
      unfold holds_last_write in *. now rewrite <- Hcache.
    + exists (CacheSet (results_key func_hash) (Frame df) (Some 30%Q) :: evs).
      split; [rewrite Ht, Happ; now rewrite <- app_assoc|]. split.
      * constructor; [|exact Hweak]. exists df, force. split; [now left | reflexivity].
      * unfold holds_last_write in *. rewrite last_cons.
        destruct (last evs) as [e|]; [exact Hlast|].
        exists df, (clock (world s)). split; [reflexivity|]. now rewrite Hlast.
Qed.

(** ** Leaving [run] *)

Lemma pool_during_simulation self ident sim w :
  process_pool (world (run_simulate generate_cache_key default_timeout self sim
                         (run_enter self ident w)))
  = <[ident := uuid self]> (process_pool w).
Proof.
  unfold run_simulate.
  destruct (sim_steps_frame (generate_cache_key (variables self)) (actions sim)
              {| world := log (Simulate (variables self)) (world (run_enter self ident w));
                 last_results := last_results (run_enter self ident w) |}) as (Hp & _).
  simpl in Hp. exact Hp.
Qed.

Lemma run_leave_finished self ident s (ref : string) :
  process_pool (world s) !! ident = Some ref ->
  let func_hash := generate_cache_key (variables self) in
  exists w',
    run_leave generate_cache_key default_timeout self ident s = (Finished, w') /\
    trace w' = trace (world s) ++
      [CacheSet (finished_key func_hash) (Flag true) None; PoolDelete ident] /\
    cache w' = <[finished_key func_hash := (Flag true, (clock (world s) + default_timeout)%Q)]>
                 (cache (world s)) /\
    process_pool w' = delete ident (process_pool (world s)) /\
    session w' = session (world s) /\
    started w' = started (world s) /\
    clock w' = clock (world s).
Proof.
  intros Hpool func_hash. unfold run_leave. simpl. rewrite Hpool.
  eexists. split; [reflexivity|]. simpl.
  repeat split; try reflexivity.
  now rewrite <- app_assoc.
Qed.

(** C2.  When [simulate_individuals] returns a frame, [run] makes exactly one
    more write of that frame under ['%s-results'] (the forced publish), then
    writes [True] under ['%s-finished'], then deregisters.  When it raises
    [ExecutionInterrupted], [run] writes only the finished flag and
    deregisters: the results entry is the one in place when the simulation
    stopped, which holds the frame of the last write the callback made, or
    is what the cache held before the run (nothing, for a cache without the
    key) when the callback made none. *)
Theorem run_final_publish (self : SimulationThread) (ident : Z)
    (l : list (@sim_action DataFrame)) w :
  let func_hash := generate_cache_key (variables self) in
  (forall df,
     let sim := {| actions := l; ending := Returns df |} in
     let s := run_simulate generate_cache_key default_timeout self sim
                (run_enter self ident w) in
     exists w',
       run generate_cache_key default_timeout self ident sim w = (Finished, w') /\
       trace w' = trace (world s) ++
         [CacheSet (results_key func_hash) (Frame df) (Some 30%Q);
          CacheSet (finished_key func_hash) (Flag true) None;
          PoolDelete ident] /\
       cache w' !! results_key func_hash = Some (Frame df, (clock (world s) + 30)%Q) /\
       cache w' !! finished_key func_hash =
         Some (Flag true, (clock (world s) + default_timeout)%Q)) /\
  (let sim := {| actions := l; ending := RaisesInterrupted |} in
   let s := run_simulate generate_cache_key default_timeout self sim
              (run_enter self ident w) in
   exists w' evs,
     run generate_cache_key default_timeout self ident sim w = (Finished, w') /\
     trace (world s) = trace w ++
       [PoolInsert ident (uuid self); Simulate (variables self)] ++ evs /\
     Forall (report_write func_hash l) evs /\
     trace w' = trace (world s) ++
       [CacheSet (finished_key func_hash) (Flag true) None; PoolDelete ident] /\
     cache w' !! results_key func_hash = cache (world s) !! results_key func_hash /\
     holds_last_write func_hash evs
       (cache w !! results_key func_hash) (cache w' !! results_key func_hash)).
Proof.
  intros func_hash. split.
  - intros df sim s.
    pose proof (pool_during_simulation self ident sim w) as Hpool. fold s in Hpool.
    unfold run. fold s. simpl ending. cbv iota.
    set (s1 := snd (step_callback default_timeout (generate_cache_key (variables self))
                      df true s)).
    assert (Hs1 : world s1 = cache_set default_timeout (results_key func_hash)
                               (Frame df) (Some 30%Q) (world s)).
    { subst s1. unfold step_callback. reflexivity. }
    destruct (run_leave_finished self ident s1 (uuid self)) as (w' & Hrun & Ht & Hc & _).
    { rewrite Hs1. simpl. rewrite Hpool. apply lookup_insert_eq. }
    exists w'. split; [exact Hrun|]. fold func_hash in Ht, Hc.
    rewrite Ht, Hc, Hs1. simpl. repeat split.
    + now rewrite <- app_assoc.
    + rewrite lookup_insert_ne by apply finished_key_not_results.
      apply lookup_insert_eq.
    + apply lookup_insert_eq.
  - intros sim s.
    pose proof (pool_during_simulation self ident sim w) as Hpool. fold s in Hpool.
    unfold run. fold s. simpl ending. cbv iota.
    destruct (run_leave_finished self ident s (uuid self)) as (w' & Hrun & Ht & Hc & _).
    { rewrite Hpool. apply lookup_insert_eq. }
    fold func_hash in Ht, Hc.
    assert (Hres : cache w' !! results_key func_hash = cache (world s) !! results_key func_hash).
    { rewrite Hc. apply lookup_insert_ne, finished_key_not_results. }
    destruct (sim_steps_published func_hash l
                {| world := log (Simulate (variables self)) (world (run_enter self ident w));
                   last_results := last_results (run_enter self ident w) |})
      as (evs & Hsim & Hall & Hlast).
    change (sim_steps default_timeout func_hash l _) with s in Hsim, Hlast.
    simpl in Hsim, Hlast.
    exists w', evs. split; [exact Hrun|]. split; [|split; [exact Hall|]].
    { rewrite Hsim. repeat rewrite <- app_assoc. reflexivity. }
    split; [exact Ht|]. split; [exact Hres|]. now rewrite Hres.
Qed.

(** ** The process pool *)


Lemma report_write_is_cache_set func_hash l (e : @event DataFrame) :
  report_write func_hash l e -> is_cache_set e.
Proof. intros (df & force & _ & ->). now eexists _, _, _. Qed.

Lemma store_inputs_frame n_clicks simulation_days w :
  let w' := store_inputs set_variable n_clicks simulation_days w in
  process_pool w' = process_pool w /\ cache w' = cache w /\
  started w' = started w /\ clock w' = clock w /\ trace w' = trace w.
Proof.
  unfold store_inputs. destruct n_clicks as [n|]; [destruct (n =? 0)%Z|];
    simpl; repeat split; reflexivity.
Qed.

Lemma update_simulation_results_pool w :
  process_pool (snd (update_simulation_results generate_cache_key w)) = process_pool w.
Proof.
  unfold update_simulation_results.
  destruct (thread_id (session w)); [|reflexivity].
  simpl. destruct (cache_read _ w); [|reflexivity].
  destruct (truthy_cached _); reflexivity.
Qed.

Lemma run_simulation_callback_pool n_clicks simulation_days new_uuid w :
  process_pool (snd (run_simulation_callback default_timeout RESTRICT_TO_PRESET_SCENARIOS
                       set_variable simulate_individuals_only_if_in_cache
                       n_clicks simulation_days new_uuid w))
  = process_pool w.
Proof.
  destruct (store_inputs_frame n_clicks simulation_days w) as (Hp & _).
  unfold run_simulation_callback.
  destruct (simulate_individuals_only_if_in_cache _ _ _); [exact Hp|].
  destruct RESTRICT_TO_PRESET_SCENARIOS; [exact Hp|].
  simpl. rewrite <- Hp. unfold kill_existing.
  destruct (thread_id _) as [id|]; [destruct (truthy_str id)|]; reflexivity.
Qed.

(** C6.  [run] stores its handle under [self.ident] before it enters
    [simulate_individuals]; the entry stays in place after every prefix of
    what the simulation does; and when the simulation returns or raises
    [ExecutionInterrupted], [run] finishes with the entry deleted, the
    deletion being the last effect of the run and everything between the
    insertion and the deletion being cache writes.  The two request
    callbacks leave the pool as it is. *)
Theorem process_pool_owned_by_run (self : SimulationThread) (ident : Z)
    (sim : @Simulation DataFrame) w :
  let s0 := run_enter self ident w in
  process_pool (world s0) = <[ident := uuid self]> (process_pool w) /\
  trace (world s0) = trace w ++ [PoolInsert ident (uuid self)] /\
  (forall l1 l2, actions sim = l1 ++ l2 ->
     process_pool (world (run_simulate generate_cache_key default_timeout self
                            {| actions := l1; ending := ending sim |} s0)) !! ident
     = Some (uuid self)) /\
  (ending sim <> RaisesOther ->
     exists w' evs,
       run generate_cache_key default_timeout self ident sim w = (Finished, w') /\
       process_pool w' = delete ident (process_pool w) /\
       process_pool w' !! ident = None /\
       trace w' = trace w ++ [PoolInsert ident (uuid self); Simulate (variables self)]
                    ++ evs ++ [PoolDelete ident] /\
       Forall is_cache_set evs) /\
  (forall w0,
     process_pool (snd (update_simulation_results generate_cache_key w0)) = process_pool w0) /\
  (forall n_clicks simulation_days new_uuid w0,
     process_pool (snd (run_simulation_callback default_timeout RESTRICT_TO_PRESET_SCENARIOS
                          set_variable simulate_individuals_only_if_in_cache
                          n_clicks simulation_days new_uuid w0))
     = process_pool w0).
Proof.
  intros s0. split; [reflexivity|]. split; [reflexivity|].
  split; [|split; [|split]].
  - intros l1 l2 _. subst s0. rewrite pool_during_simulation. apply lookup_insert_eq.
  - intros Hend.
    set (func_hash := generate_cache_key (variables self)).
    set (s := run_simulate generate_cache_key default_timeout self sim s0).
    pose proof (pool_during_simulation self ident sim w) as Hpool.
    fold s0 in Hpool. fold s in Hpool.
    destruct (sim_steps_trace func_hash (actions sim)
                {| world := log (Simulate (variables self)) (world s0);
                   last_results := last_results s0 |}) as (evs & Ht & Hall).
    change (sim_steps default_timeout func_hash (actions sim) _) with s in Ht.
    simpl in Ht.
    assert (Hevs : Forall is_cache_set evs).
    { eapply Forall_impl; [exact Hall|]. apply report_write_is_cache_set. }
    unfold run. fold s0. fold s.
    destruct (ending sim) as [df | |] eqn:He; [| |congruence].
    + set (s1 := snd (step_callback default_timeout (generate_cache_key (variables self))
                        df true s)).
      assert (Hs1 : world s1 = cache_set default_timeout (results_key func_hash)
                                 (Frame df) (Some 30%Q) (world s)) by reflexivity.
      destruct (run_leave_finished self ident s1 (uuid self))
        as (w' & Hrun & Ht' & _ & Hp' & _).
      { rewrite Hs1. simpl. rewrite Hpool. apply lookup_insert_eq. }
      exists w', (evs ++ [CacheSet (results_key func_hash) (Frame df) (Some 30%Q);
                          CacheSet (finished_key func_hash) (Flag true) None]).
      split; [exact Hrun|].
      assert (Hdel : process_pool w' = delete ident (process_pool w)).
      { rewrite Hp', Hs1. simpl. rewrite Hpool. apply delete_insert_eq. }
      split; [exact Hdel|]. split; [rewrite Hdel; apply lookup_delete_eq|]. split.
      * rewrite Ht', Hs1. simpl. rewrite Ht. fold func_hash.
        repeat rewrite <- app_assoc. reflexivity.
      * apply Forall_app. split; [exact Hevs|].
        repeat constructor; now eexists _, _, _.
    + destruct (run_leave_finished self ident s (uuid self))
        as (w' & Hrun & Ht' & _ & Hp' & _).
      { rewrite Hpool. apply lookup_insert_eq. }
      exists w', (evs ++ [CacheSet (finished_key func_hash) (Flag true) None]).
      split; [exact Hrun|].
      assert (Hdel : process_pool w' = delete ident (process_pool w)).
      { rewrite Hp', Hpool. apply delete_insert_eq. }
      split; [exact Hdel|]. split; [rewrite Hdel; apply lookup_delete_eq|]. split.
      * rewrite Ht', Ht. fold func_hash.
        repeat rewrite <- app_assoc. reflexivity.
      * apply Forall_app. split; [exact Hevs|].
        repeat constructor; now eexists _, _, _.
  - apply update_simulation_results_pool.
  - apply run_simulation_callback_pool.
Qed.

(** ** Reading the cache *)

Lemma cache_read_live (key : string) w (value : cache_value DataFrame) (expires : Q) :
  cache w !! key = Some (value, expires) ->
  (clock w < expires)%Q ->
  cache_read key w = Some value.
Proof.
  intros Hk Hlt. unfold cache_read. rewrite Hk.
  apply Qlt_bool_iff in Hlt. now rewrite Hlt.
Qed.

Lemma cache_read_expired (key : string) w (value : cache_value DataFrame) (expires : Q) :
  cache w !! key = Some (value, expires) ->
  (expires <= clock w)%Q ->
  cache_read key w = None.
Proof.
  intros Hk Hle. unfold cache_read. rewrite Hk.
  apply Qlt_bool_false_iff in Hle. now rewrite Hle.
Qed.

(** The poll for a session with a job, in terms of the two reads. *)
Lemma update_simulation_results_bound w (id : string) :
  thread_id (session w) = Some id ->
  let func_hash := generate_cache_key (session w) in
  update_simulation_results generate_cache_key w =
    match cache_read (results_key func_hash) w with
    | None => (PreventUpdate, log (CacheGet (results_key func_hash)) w)
    | Some df =>
        let w2 := log (CacheGet (finished_key func_hash))
                      (log (CacheGet (results_key func_hash)) w) in
        match truthy_cached (cache_read (finished_key func_hash) w) with
        | Some disabled => (Outputs df disabled, w2)
        | None => (ValueError, w2)
        end
    end.
Proof.
  intros Hid func_hash. unfold update_simulation_results. rewrite Hid.
  simpl. fold func_hash. destruct (cache_read (results_key func_hash) w); reflexivity.
Qed.

(** C10.  When the simulation raises [ExecutionInterrupted], [run] still
    writes [True] under ['%s-finished'] and only then deregisters.  A poll
    for the same hash that finds a snapshot while that flag has not expired
    therefore answers with the snapshot and [disabled = True]. *)
Theorem cancelled_run_marks_finished (self : SimulationThread) (ident : Z)
    (l : list (@sim_action DataFrame)) w :
  let func_hash := generate_cache_key (variables self) in
  let sim := {| actions := l; ending := RaisesInterrupted |} in
  let s := run_simulate generate_cache_key default_timeout self sim
             (run_enter self ident w) in
  exists w',
    run generate_cache_key default_timeout self ident sim w = (Finished, w') /\
    trace w' = trace (world s) ++
      [CacheSet (finished_key func_hash) (Flag true) None; PoolDelete ident] /\
    cache w' !! finished_key func_hash =
      Some (Flag true, (clock (world s) + default_timeout)%Q) /\
    (forall w0 (id : string) (snapshot : cache_value DataFrame),
       cache w0 = cache w' ->
       thread_id (session w0) = Some id ->
       generate_cache_key (session w0) = func_hash ->
       (clock w0 < clock (world s) + default_timeout)%Q ->
       cache_read (results_key func_hash) w0 = Some snapshot ->
       fst (update_simulation_results generate_cache_key w0) = Outputs snapshot true).
Proof.
  intros func_hash sim s.
  pose proof (pool_during_simulation self ident sim w) as Hpool. fold s in Hpool.
  unfold run. fold s. simpl ending. cbv iota.
  destruct (run_leave_finished self ident s (uuid self)) as (w' & Hrun & Ht & Hc & _).
  { rewrite Hpool. apply lookup_insert_eq. }
  fold func_hash in Ht, Hc.
  assert (Hfin : cache w' !! finished_key func_hash =
                 Some (Flag true, (clock (world s) + default_timeout)%Q)).
  { rewrite Hc. apply lookup_insert_eq. }
  exists w'. repeat split; [exact Hrun | exact Ht | exact Hfin |].
  intros w0 id snapshot Hcache Hid Hhash Hclock Hres.
  rewrite (update_simulation_results_bound w0 id Hid). cbv zeta.
  rewrite Hhash, Hres.
  rewrite (cache_read_live (finished_key func_hash) w0 (Flag true)
             (clock (world s) + default_timeout)%Q); [reflexivity | | exact Hclock].
  now rewrite Hcache.
Qed.

(** ** Polling *)

(** C7.  For a session bound to a job: without a live entry under
    ['%s-results'] the poll raises [PreventUpdate]; with a snapshot it shows
    the snapshot, with [disabled = True] when ['%s-finished'] reads [True] and
    [disabled = False] when it reads [False] or is absent; whenever the poll
    answers, [disabled] is true exactly when the flag reads [True]. *)
Theorem update_simulation_results_poll w (id : string) :
  thread_id (session w) = Some id ->
  let func_hash := generate_cache_key (session w) in
  let r := update_simulation_results generate_cache_key w in
  (cache_read (results_key func_hash) w = None -> fst r = PreventUpdate) /\
  (forall snapshot,
     cache_read (results_key func_hash) w = Some snapshot ->
     (cache_read (finished_key func_hash) w = Some (Flag true) ->
        fst r = Outputs snapshot true) /\
     (cache_read (finished_key func_hash) w = Some (Flag false) \/
      cache_read (finished_key func_hash) w = None ->
        fst r = Outputs snapshot false)) /\
  (forall snapshot disabled,
     fst r = Outputs snapshot disabled ->
     cache_read (results_key func_hash) w = Some snapshot /\
     (disabled = true <-> cache_read (finished_key func_hash) w = Some (Flag true))).
Proof.
  intros Hid func_hash r. subst r.
  rewrite (update_simulation_results_bound w id Hid). fold func_hash. cbv zeta.
  split; [|split].
  - intros ->. reflexivity.
  - intros snapshot ->. split.
    + intros ->. reflexivity.
    + intros [-> | ->]; reflexivity.
  - intros snapshot disabled.
    destruct (cache_read (results_key func_hash) w) as [v|]; [|discriminate].
    destruct (cache_read (finished_key func_hash) w) as [[b|df]|]; simpl;
      try discriminate; intros [= -> <-]; (split; [reflexivity|]); split;
      try congruence.
Qed.

(** C8.  For a session that has no ['thread_id'] the poll raises
    [PreventUpdate] at once: nothing is shown, nothing is disabled, and the
    state, with its trace of cache reads and writes, is as before. *)
Theorem update_simulation_results_unbound w :
  thread_id (session w) = None ->
  update_simulation_results generate_cache_key w = (PreventUpdate, w).
Proof. intros Hid. unfold update_simulation_results. now rewrite Hid. Qed.

(** ** Launching *)

Hypothesis set_variable_thread_id :
  forall (name : string) (value : pyval) (s : Session),
    name <> "thread_id" -> thread_id (set_variable name value s) = thread_id s.

Lemma store_inputs_thread_id n_clicks simulation_days w :
  thread_id (session (store_inputs set_variable n_clicks simulation_days w))
  = thread_id (session w).
Proof using set_variable_thread_id.
  unfold store_inputs. destruct n_clicks as [n|]; [destruct (n =? 0)%Z|]; simpl;
    repeat rewrite set_variable_thread_id by discriminate; reflexivity.
Qed.

(** C3.  When [simulate_individuals(only_if_in_cache=True)] finds a frame,
    [run_simulation_callback] returns that frame rendered; no process is
    started, the ['thread_id'] of the session is what it was, and the cache
    and the trace are unchanged (no kill signal, no other write). *)
Theorem run_simulation_callback_cached (n_clicks : option Z) (simulation_days : Z)
    (new_uuid : string) w df :
  let w1 := store_inputs set_variable n_clicks simulation_days w in
  simulate_individuals_only_if_in_cache (session w1) (cache w1) (clock w1) = Some df ->
  let r := run_simulation_callback default_timeout RESTRICT_TO_PRESET_SCENARIOS
             set_variable simulate_individuals_only_if_in_cache
             n_clicks simulation_days new_uuid w in
  fst r = Rendered df /\
  started (snd r) = started w /\
  thread_id (session (snd r)) = thread_id (session w) /\
  cache (snd r) = cache w /\
  trace (snd r) = trace w.
Proof using set_variable_thread_id.
  intros w1 Hhit r. subst r. unfold run_simulation_callback. fold w1. rewrite Hhit.
  destruct (store_inputs_frame n_clicks simulation_days w) as (_ & Hc & Hs & _ & Ht).
  simpl. repeat split; try assumption. apply store_inputs_thread_id.
Qed.

(** C9.  When nothing is cached and [RESTRICT_TO_PRESET_SCENARIOS] is set,
    [run_simulation_callback] returns the service-busy message; no process is
    started, the ['thread_id'] of the session is what it was, and the cache
    and the trace are unchanged (no kill signal for a previous job). *)
Theorem run_simulation_callback_restricted (n_clicks : option Z) (simulation_days : Z)
    (new_uuid : string) w :
  let w1 := store_inputs set_variable n_clicks simulation_days w in
  simulate_individuals_only_if_in_cache (session w1) (cache w1) (clock w1) = None ->
  RESTRICT_TO_PRESET_SCENARIOS = true ->
  let r := run_simulation_callback default_timeout RESTRICT_TO_PRESET_SCENARIOS
             set_variable simulate_individuals_only_if_in_cache
             n_clicks simulation_days new_uuid w in
  fst r = Busy /\
  started (snd r) = started w /\
  thread_id (session (snd r)) = thread_id (session w) /\
  cache (snd r) = cache w /\
  trace (snd r) = trace w.
Proof using set_variable_thread_id.
  intros w1 Hmiss Hrestrict r. subst r. unfold run_simulation_callback. fold w1.
  rewrite Hmiss, Hrestrict.
  destruct (store_inputs_frame n_clicks simulation_days w) as (_ & Hc & Hs & _ & Ht).
  simpl. repeat split; try assumption. apply store_inputs_thread_id.
Qed.

(** C4.  When nothing is cached and computation is not restricted,
    [run_simulation_callback] answers with the polling interval (500 ms, 60
    intervals) and no result; it starts one process whose [variables] are the
    copy of the session taken before the binding is changed, and binds the
    session to the uuid of that process.  If the session was bound to a job,
    it first writes [True] under exactly ['thread-%s-kill'] of that job; if it
    was not bound, it writes nothing to the cache. *)
Theorem run_simulation_callback_spawn (n_clicks : option Z) (simulation_days : Z)
    (new_uuid : string) w :
  let w1 := store_inputs set_variable n_clicks simulation_days w in
  simulate_individuals_only_if_in_cache (session w1) (cache w1) (clock w1) = None ->
  RESTRICT_TO_PRESET_SCENARIOS = false ->
  let r := run_simulation_callback default_timeout RESTRICT_TO_PRESET_SCENARIOS
             set_variable simulate_individuals_only_if_in_cache
             n_clicks simulation_days new_uuid w in
  let process := {| variables := session w1; uuid := new_uuid |} in
  fst r = Polling 500 60 /\
  started (snd r) = started w ++ [process] /\
  thread_id (session (snd r)) = Some new_uuid /\
  vars (session (snd r)) = vars (session w1) /\
  (forall old : string,
     thread_id (session w) = Some old -> old <> EmptyString ->
     trace (snd r) = trace w ++
       [CacheSet (kill_key old) (Flag true) None; ProcessStart new_uuid] /\
     cache (snd r) =
       <[kill_key old := (Flag true, (clock w + default_timeout)%Q)]> (cache w)) /\
  (thread_id (session w) = None ->
     trace (snd r) = trace w ++ [ProcessStart new_uuid] /\
     cache (snd r) = cache w).
Proof using set_variable_thread_id.
  intros w1 Hmiss Hfree r process. subst r. unfold run_simulation_callback. fold w1.
  rewrite Hmiss, Hfree.
  destruct (store_inputs_frame n_clicks simulation_days w) as (_ & Hc & Hs & Hk & Ht).
  fold w1 in Hc, Hs, Hk, Ht.
  pose proof (store_inputs_thread_id n_clicks simulation_days w) as Hid. fold w1 in Hid.
  assert (Hsess : session (kill_existing default_timeout w1) = session w1).
  { unfold kill_existing. destruct (thread_id _) as [x|]; [destruct (truthy_str x)|];
      reflexivity. }
  assert (Hstarted : started (kill_existing default_timeout w1) = started w1).
  { unfold kill_existing. destruct (thread_id _) as [x|]; [destruct (truthy_str x)|];
      reflexivity. }
  cbv zeta. simpl. rewrite Hsess, Hstarted, Hs.
  do 4 (split; [reflexivity|]). split.
  - intros old Hold Hne. rewrite <- Hid in Hold. unfold kill_existing. rewrite Hold.
    destruct old as [|c old]; [congruence|]. simpl.
    rewrite Ht, Hc, Hk. split; [now rewrite <- app_assoc | reflexivity].
  - intros Hnone. rewrite <- Hid in Hnone. unfold kill_existing. rewrite Hnone.
    simpl. rewrite Ht. split; [reflexivity | exact Hc].
Qed.

(** ** Lifetimes of the worker's cache entries *)


Lemma cache_set_lifetime (key : string) (value : cache_value DataFrame)
    (timeout : option Q) w (t : Q) :
  let w1 := with_clock t (cache_set default_timeout key value timeout w) in
  let ttl := default default_timeout timeout in
  ((t < clock w + ttl)%Q -> cache_read key w1 = Some value) /\
  ((clock w + ttl < t)%Q -> cache_read key w1 = None).
Proof.
  intros w1 ttl.
  assert (Hk : cache w1 !! key = Some (value, (clock w + ttl)%Q)).
  { subst w1. simpl. apply lookup_insert_eq. }
  split; intros Ht.
  - exact (cache_read_live key w1 value _ Hk Ht).
  - apply (cache_read_expired key w1 value _ Hk). simpl. now apply Qlt_le_weak.
Qed.

Lemma step_callback_accepted func_hash df (force : bool) s :
  accepted force s ->
  world (snd (step_callback default_timeout func_hash df force s)) =
    cache_set default_timeout (results_key func_hash) (Frame df) (Some 30%Q) (world s).
Proof.
  intros Hacc. apply publish_due_accepted in Hacc.
  unfold step_callback. now rewrite Hacc.
Qed.

(** C5, as the code has it.  Every write of a run is either a frame under
    ['%s-results'] with [timeout=30] or [True] under ['%s-finished'] with no
    timeout.  A frame written by the callback can be read for 30 seconds and
    is absent afterwards; the finished flag can be read for the default
    timeout of the cache and is absent afterwards. *)
Theorem worker_cache_timeouts (self : SimulationThread) (ident : Z)
    (sim : @Simulation DataFrame) w :
  ending sim <> RaisesOther ->
  let func_hash := generate_cache_key (variables self) in
  (exists w' evs,
     run generate_cache_key default_timeout self ident sim w = (Finished, w') /\
     trace w' = trace w ++ [PoolInsert ident (uuid self); Simulate (variables self)]
                  ++ evs ++ [PoolDelete ident] /\
     Forall (worker_write func_hash) evs /\
     cache w' !! finished_key func_hash = Some (Flag true, (clock w' + default_timeout)%Q) /\
     (forall t, (t < clock w' + default_timeout)%Q ->
        cache_read (finished_key func_hash) (with_clock t w') = Some (Flag true)) /\
     (forall t, (clock w' + default_timeout < t)%Q ->
        cache_read (finished_key func_hash) (with_clock t w') = None)) /\
  (forall df (force : bool) s (t : Q),
     accepted force s ->
     let s' := snd (step_callback default_timeout func_hash df force s) in
     ((t < clock (world s) + 30)%Q ->
        cache_read (results_key func_hash) (with_clock t (world s')) = Some (Frame df)) /\
     ((clock (world s) + 30 < t)%Q ->
        cache_read (results_key func_hash) (with_clock t (world s')) = None)).
Proof.
  intros Hend func_hash. split.
  - set (s0 := run_enter self ident w).
    set (s := run_simulate generate_cache_key default_timeout self sim s0).
    pose proof (pool_during_simulation self ident sim w) as Hpool.
    fold s0 in Hpool. fold s in Hpool.
    destruct (sim_steps_trace func_hash (actions sim)
                {| world := log (Simulate (variables self)) (world s0);
                   last_results := last_results s0 |}) as (evs & Ht & Hall).
    change (sim_steps default_timeout func_hash (actions sim) _) with s in Ht.
    simpl in Ht.
    assert (Hevs : Forall (worker_write func_hash) evs).
    { eapply Forall_impl; [exact Hall|].
      intros e (df & force & _ & ->). left. now exists df. }
    assert (Hfinal : forall s1 evs1,
              process_pool (world s1) !! ident = Some (uuid self) ->
              trace (world s1) = trace (world s) ++ evs1 ->
              Forall (worker_write func_hash) evs1 ->
              exists w' evs',
                run_leave generate_cache_key default_timeout self ident s1 = (Finished, w') /\
                trace w' = trace w ++ [PoolInsert ident (uuid self); Simulate (variables self)]
                             ++ evs' ++ [PoolDelete ident] /\
                Forall (worker_write func_hash) evs' /\
                cache w' !! finished_key func_hash =
                  Some (Flag true, (clock w' + default_timeout)%Q) /\
                (forall t, (t < clock w' + default_timeout)%Q ->
                   cache_read (finished_key func_hash) (with_clock t w') = Some (Flag true)) /\
                (forall t, (clock w' + default_timeout < t)%Q ->
                   cache_read (finished_key func_hash) (with_clock t w') = None)).
    { intros s1 evs1 Hp1 Ht1 Hall1.
      destruct (run_leave_finished self ident s1 (uuid self) Hp1)
        as (w' & Hrun & Ht' & Hc' & _ & _ & _ & Hclock).
      fold func_hash in Ht', Hc'.
      assert (Hk : cache w' !! finished_key func_hash =
                   Some (Flag true, (clock w' + default_timeout)%Q)).
      { rewrite Hc', Hclock. apply lookup_insert_eq. }
      exists w', (evs ++ evs1 ++ [CacheSet (finished_key func_hash) (Flag true) None]).
      split; [exact Hrun|]. split; [|split; [|split; [exact Hk|split]]].
      - rewrite Ht', Ht1, Ht. repeat rewrite <- app_assoc. reflexivity.
      - apply Forall_app. split; [exact Hevs|]. apply Forall_app. split; [exact Hall1|].
        constructor; [now right | constructor].
      - intros t Hlt. exact (cache_read_live _ (with_clock t w') _ _ Hk Hlt).
      - intros t Hlt. apply (cache_read_expired _ (with_clock t w') _ _ Hk).
        simpl. now apply Qlt_le_weak. }
    unfold run. fold s0. fold s.
    destruct (ending sim) as [df | |] eqn:He; [| |congruence].
    + apply (Hfinal _ [CacheSet (results_key func_hash) (Frame df) (Some 30%Q)]).
      * simpl. rewrite Hpool. apply lookup_insert_eq.
      * reflexivity.
      * constructor; [left; now exists df | constructor].
    + apply (Hfinal s []).
      * rewrite Hpool. apply lookup_insert_eq.
      * now rewrite app_nil_r.
      * constructor.
  - intros df force s t Hacc s'.
    subst s'. rewrite (step_callback_accepted func_hash df force s Hacc).
    exact (cache_set_lifetime (results_key func_hash) (Frame df) (Some 30%Q) (world s) t).
Qed.

End Properties.

(** * The properties on the sample configuration *)

Section Samples.

Import Sample.

(** The sample [set_variable] leaves ['thread_id'] alone. *)
Lemma sample_set_variable_thread_id (name : string) (value : pyval) (s : Session) :
  name <> "thread_id" -> thread_id (set_variable name value s) = thread_id s.
Proof. intros _. reflexivity. Qed.

(** Reports at seconds 100, 100.2 and 100.7: the second one is throttled, and
    the returned frame is published once more. *)
Example three_reports_trace :
  trace (snd (run hash five_minutes job_a pid_a (three_reports (Returns 4%Z))
                (at_100 unbound ∅)))
  = [PoolInsert pid_a "job-a"; Simulate unbound;
     CacheSet "sim45-results" (Frame 1%Z) (Some 30%Q);
     CacheSet "sim45-results" (Frame 3%Z) (Some 30%Q);
     CacheSet "sim45-results" (Frame 4%Z) (Some 30%Q);
     CacheSet "sim45-finished" (Flag true) None;
     PoolDelete pid_a].
Proof. vm_compute. reflexivity. Qed.

(** A hundred reports within 200 ms: the first is written, the others are
    throttled, and the returned frame is published by the forced call. *)
Example hundred_reports_trace :
  trace (snd (run hash five_minutes job_a pid_a hundred_reports (at_100 unbound ∅)))
  = [PoolInsert pid_a "job-a"; Simulate unbound;
     CacheSet "sim45-results" (Frame 1%Z) (Some 30%Q);
     CacheSet "sim45-results" (Frame 2%Z) (Some 30%Q);
     CacheSet "sim45-finished" (Flag true) None;
     PoolDelete pid_a].
Proof. vm_compute. reflexivity. Qed.

(** An exception other than [ExecutionInterrupted] leaves [run] before the
    finished flag is written and before the pool entry is deleted. *)
Example uncaught_exception_skips_cleanup :
  let r := run hash five_minutes job_a pid_a (three_reports RaisesOther)
             (at_100 unbound ∅) in
  fst r = Uncaught /\
  process_pool (snd r) !! pid_a = Some "job-a" /\
  cache (snd r) !! finished_key "sim45" = None.
Proof. vm_compute. repeat split. Qed.

(** C3 on the sample: frame 4 is cached for 45 days. *)
Lemma run_simulation_callback_cached_witness :
  cached_frame
    (session (store_inputs set_variable None 45 (at_100 bound snapshot_only)))
    snapshot_only 100 = Some 4%Z /\
  fst (run_simulation_callback five_minutes false set_variable cached_frame
         None 45 "job-b" (at_100 bound snapshot_only)) = Rendered 4%Z /\
  started (snd (run_simulation_callback five_minutes false set_variable cached_frame
                  None 45 "job-b" (at_100 bound snapshot_only))) = [].
Proof.
  split; [vm_compute; reflexivity|].
  destruct (run_simulation_callback_cached five_minutes false set_variable cached_frame
              sample_set_variable_thread_id None 45 "job-b"
              (at_100 bound snapshot_only) 4%Z) as (Hout & Hstarted & _).
  - vm_compute. reflexivity.
  - split; [exact Hout | exact Hstarted].
Defined.

(** C9 on the sample: nothing cached, computation restricted. *)
Lemma run_simulation_callback_restricted_witness :
  cached_frame
    (session (store_inputs set_variable (Some 1%Z) 45 (at_100 bound ∅)))
    ∅ 100 = None /\
  fst (run_simulation_callback five_minutes true set_variable cached_frame
         (Some 1%Z) 45 "job-b" (at_100 bound ∅)) = Busy /\
  trace (snd (run_simulation_callback five_minutes true set_variable cached_frame
                (Some 1%Z) 45 "job-b" (at_100 bound ∅))) = [].
Proof.
  split; [vm_compute; reflexivity|].
  destruct (run_simulation_callback_restricted five_minutes true set_variable cached_frame
              sample_set_variable_thread_id (Some 1%Z) 45 "job-b"
              (at_100 bound ∅)) as (Hout & _ & _ & _ & Htrace).
  - vm_compute. reflexivity.
  - reflexivity.
  - split; [exact Hout | exact Htrace].
Defined.

(** C4 on the sample: the session is bound to job-a, job-b is started. *)
Lemma run_simulation_callback_spawn_witness :
  cached_frame
    (session (store_inputs set_variable (Some 1%Z) 45 (at_100 bound ∅)))
    ∅ 100 = None /\
  fst (run_simulation_callback five_minutes false set_variable cached_frame
         (Some 1%Z) 45 "job-b" (at_100 bound ∅)) = Polling 500 60 /\
  trace (snd (run_simulation_callback five_minutes false set_variable cached_frame
                (Some 1%Z) 45 "job-b" (at_100 bound ∅)))
  = [CacheSet "thread-job-a-kill" (Flag true) None; ProcessStart "job-b"] /\
  thread_id (session (snd (run_simulation_callback five_minutes false set_variable
                             cached_frame (Some 1%Z) 45 "job-b" (at_100 bound ∅))))
  = Some "job-b".
Proof.
  split; [vm_compute; reflexivity|].
  destruct (run_simulation_callback_spawn five_minutes false set_variable cached_frame
              sample_set_variable_thread_id (Some 1%Z) 45 "job-b"
              (at_100 bound ∅)) as (Hout & _ & Hid & _ & Hkill & _).
  - vm_compute. reflexivity.
  - reflexivity.
  - destruct (Hkill "job-a") as (Htrace & _); [reflexivity | discriminate |].
    split; [exact Hout|]. split; [exact Htrace | exact Hid].
Defined.

(** C7 on the sample: a snapshot and the finished flag are in the cache. *)
Lemma update_simulation_results_poll_witness :
  thread_id (session (at_100 bound snapshot_finished)) = Some "job-a" /\
  fst (update_simulation_results hash (at_100 bound snapshot_finished))
  = Outputs (Frame 4%Z) true /\
  fst (update_simulation_results hash (at_100 bound snapshot_only))
  = Outputs (Frame 4%Z) false.
Proof.
  split; [reflexivity|]. split.
  - destruct (update_simulation_results_poll hash (at_100 bound snapshot_finished) "job-a")
      as (_ & Hshow & _); [reflexivity|].
    destruct (Hshow (Frame 4%Z)) as (Hdone & _); [vm_compute; reflexivity|].
    apply Hdone. vm_compute. reflexivity.
  - destruct (update_simulation_results_poll hash (at_100 bound snapshot_only) "job-a")
      as (_ & Hshow & _); [reflexivity|].
    destruct (Hshow (Frame 4%Z)) as (_ & Hpending); [vm_compute; reflexivity|].
    apply Hpending. right. vm_compute. reflexivity.
Defined.

(** C8 on the sample: the session has no job. *)
Lemma update_simulation_results_unbound_witness :
  thread_id (session (at_100 unbound snapshot_finished)) = None /\
  update_simulation_results hash (at_100 unbound snapshot_finished)
  = (PreventUpdate, at_100 unbound snapshot_finished).
Proof.
  split; [reflexivity|].
  apply (update_simulation_results_unbound hash (at_100 unbound snapshot_finished)).
  reflexivity.
Defined.

(** C5 on the sample: the run of [job_a] ends at second 101; with a default
    timeout of five minutes its finished flag is read at second 400 and is
    absent at second 402. *)
Lemma worker_cache_timeouts_witness :
  ending (three_reports (Returns 4%Z)) <> RaisesOther /\
  exists w',
    run hash five_minutes job_a pid_a (three_reports (Returns 4%Z)) (at_100 unbound ∅)
    = (Finished, w') /\
    cache_read (finished_key "sim45") (with_clock 400 w') = Some (Flag true) /\
    cache_read (finished_key "sim45") (with_clock 402 w') = None.
Proof.
  split; [discriminate|].
  destruct (worker_cache_timeouts hash five_minutes job_a pid_a
              (three_reports (Returns 4%Z)) (at_100 unbound ∅))
    as ((w' & evs & Hrun & _ & _ & Hentry & Hlive & Hdead) & _); [discriminate|].
  exists w'. split; [exact Hrun|].
  assert (Hclock : clock w' = clock (snd (run hash five_minutes job_a pid_a
                     (three_reports (Returns 4%Z)) (at_100 unbound ∅)))).
  { rewrite Hrun. reflexivity. }
  split.
  - apply Hlive. rewrite Hclock. vm_compute. reflexivity.
  - apply Hdead. rewrite Hclock. vm_compute. reflexivity.
Defined.

(** C5 as stated fails: the finished flag is written with no timeout.  With
    a default timeout of five minutes, the flag written at second 101 is
    still read at second 140, more than 30 seconds after the write. *)
Lemma finished_flag_outlives_30_seconds :
  exists w',
    run hash five_minutes job_a pid_a (three_reports (Returns 4%Z)) (at_100 unbound ∅)
    = (Finished, w') /\
    last (removelast (trace w')) = Some (CacheSet (finished_key "sim45") (Flag true) None) /\
    (clock w' + 30 < 140)%Q /\
    cache_read (finished_key "sim45") (with_clock 140 w') = Some (Flag true).
Proof.
  exists (snd (run hash five_minutes job_a pid_a (three_reports (Returns 4%Z))
                 (at_100 unbound ∅))).
  split; [vm_compute; reflexivity|].
  split; [vm_compute; reflexivity|].
  split; vm_compute; reflexivity.
Qed.

(** C10 on the sample: the simulation is interrupted after its third report;
    a poll at second 105 for the same variables shows frame 3 and stops the
    polling. *)
Lemma cancelled_run_marks_finished_witness :
  fst (run hash five_minutes job_a pid_a (three_reports RaisesInterrupted)
         (at_100 unbound ∅)) = Finished /\
  fst (update_simulation_results hash
         {| process_pool := ∅;
            cache := cache (snd (run hash five_minutes job_a pid_a
                                   (three_reports RaisesInterrupted) (at_100 unbound ∅)));
            session := bound; started := []; clock := 105; trace := [] |})
  = Outputs (Frame 3%Z) true.
Proof.
  destruct (cancelled_run_marks_finished hash five_minutes job_a pid_a
              (actions (three_reports RaisesInterrupted)) (at_100 unbound ∅))
    as (w' & Hrun & _ & _ & Hpoll).
  change {| actions := actions (three_reports RaisesInterrupted);
            ending := RaisesInterrupted |}
    with (three_reports RaisesInterrupted) in Hrun.
  split; [now rewrite Hrun|].
  apply (Hpoll _ "job-a").
  - rewrite Hrun. reflexivity.
  - reflexivity.
  - reflexivity.
  - vm_compute. reflexivity.
  - vm_compute. reflexivity.
Defined.

End Samples.

(** * Further properties of the job subsystem *)

Lemma append_length (a b : string) :
  String.length (a +:+ b) = String.length a + String.length b.
Proof.
  induction a as [|c a IH]; [reflexivity|].
  change (S (String.length (a +:+ b)) = S (String.length a + String.length b)).
  now rewrite IH.
Qed.

Lemma append_cancel_r (a b suffix : string) :
  a +:+ suffix = b +:+ suffix -> a = b.
Proof.
  revert b. induction a as [|c a IH]; intros [|d b] E.
  - reflexivity.
  - apply (f_equal String.length) in E. rewrite !append_length in E.
    simpl in E. lia.
  - apply (f_equal String.length) in E. rewrite !append_length in E.
    simpl in E. lia.
  - change (String c (a +:+ suffix) = String d (b +:+ suffix)) in E.
    injection E as -> E. f_equal. now apply IH.
Qed.

(** X1.  The three kinds of cache key never collide: ['%s-results'],
    ['%s-finished'] and ['thread-%s-kill'] are injective in the hash or job
    id they are formatted with, and a key of one kind is never a key of
    another kind. *)
Theorem cache_keys_disjoint (h h' : string) :
  (results_key h = results_key h' -> h = h') /\
  (finished_key h = finished_key h' -> h = h') /\
  (kill_key h = kill_key h' -> h = h') /\
  results_key h <> finished_key h' /\
  results_key h <> kill_key h' /\
  finished_key h <> kill_key h'.
Proof.
  repeat split.
  - apply append_cancel_r.
  - apply append_cancel_r.
  - unfold kill_key. intros E.
    change (String.append "thread-" (h +:+ "-kill") = String.append "thread-" (h' +:+ "-kill")) in E.
    cbn in E. injection E as E.
    change (h +:+ "-kill" = h' +:+ "-kill") in E. now apply append_cancel_r in E.
  - intros E. symmetry in E. exact (finished_key_not_results _ _ E).
  - intros E. symmetry in E. exact (kill_key_not_results _ _ E).
  - intros E. symmetry in E. exact (kill_key_not_finished _ _ E).
Qed.

Section JobProperties.

Set Default Proof Using "Type".

Context {DataFrame : Type}.
Variable generate_cache_key : Session -> string.
Variable default_timeout : Q.
Variable RESTRICT_TO_PRESET_SCENARIOS : bool.
Variable set_variable : string -> pyval -> Session -> Session.
Variable simulate_individuals_only_if_in_cache :
  Session -> gmap string (cache_value DataFrame * Q) -> Q -> option DataFrame.

Implicit Types (w : @World DataFrame) (s : @Worker DataFrame) (df : DataFrame).

(** ** The shape of a run *)

(** What [run] leaves behind, by the way the simulation ends. *)
Lemma run_unfold (self : SimulationThread) (ident : Z) (sim : @Simulation DataFrame) w :
  let func_hash := generate_cache_key (variables self) in
  let s := run_simulate generate_cache_key default_timeout self sim (run_enter self ident w) in
  let leave := fun w0 =>
    let w1 := cache_set default_timeout (finished_key func_hash) (Flag true) None w0 in
    log (PoolDelete ident) (with_pool (delete ident (process_pool w1)) w1) in
  run generate_cache_key default_timeout self ident sim w =
    match ending sim with
    | RaisesOther => (Uncaught, world s)
    | RaisesInterrupted => (Finished, leave (world s))
    | Returns df =>
        (Finished,
         leave (cache_set default_timeout (results_key func_hash) (Frame df) (Some 30%Q)
                  (world s)))
    end.
Proof.
  intros func_hash s leave.
  assert (Hpool : process_pool (world s) !! ident = Some (uuid self)).
  { subst s. unfold run_simulate.
    destruct (sim_steps_frame default_timeout (generate_cache_key (variables self))
                (actions sim)
                {| world := log (Simulate (variables self)) (world (run_enter self ident w));
                   last_results := last_results (run_enter self ident w) |}) as (Hp & _).
    rewrite Hp. simpl. apply lookup_insert_eq. }
  unfold run. fold s. destruct (ending sim) as [df | |]; [| |reflexivity].
  - unfold run_leave, step_callback. simpl. rewrite Hpool. reflexivity.
  - unfold run_leave. simpl. rewrite Hpool. reflexivity.
Qed.

(** The state in which the simulation stops, against the state [run] found. *)
Lemma run_simulate_frame (self : SimulationThread) (ident : Z) (sim : @Simulation DataFrame) w :
  let func_hash := generate_cache_key (variables self) in
  let s := run_simulate generate_cache_key default_timeout self sim (run_enter self ident w) in
  process_pool (world s) = <[ident := uuid self]> (process_pool w) /\
  session (world s) = session w /\
  started (world s) = started w /\
  (forall k, k <> results_key func_hash -> cache (world s) !! k = cache w !! k) /\
  exists evs,
    trace (world s) = trace w ++ [PoolInsert ident (uuid self); Simulate (variables self)] ++ evs /\
    Forall is_cache_set evs.
Proof.
  intros func_hash s. subst s. unfold run_simulate. fold func_hash.
  set (s0 := {| world := log (Simulate (variables self)) (world (run_enter self ident w));
                last_results := last_results (run_enter self ident w) |}).
  destruct (sim_steps_frame default_timeout func_hash (actions sim) s0)
    as (Hp & Hs & Hst & Hc).
  destruct (sim_steps_trace default_timeout func_hash (actions sim) s0)
    as (evs & Ht & Hall).
  split; [exact Hp|]. split; [exact Hs|]. split; [exact Hst|]. split; [exact Hc|].
  exists evs. split.
  - rewrite Ht. subst s0. simpl. repeat rewrite <- app_assoc. reflexivity.
  - eapply Forall_impl; [exact Hall|].
    intros e (df & force & _ & ->). now eexists _, _, _.
Qed.


(** X3.  [run] never fails on [del process_pool[self.ident]].  It is left by
    an uncaught exception exactly when the simulation raises something other
    than [ExecutionInterrupted]; then the pool still holds the entry of the
    worker, the ['%s-finished'] entry is what it was before the run, and no
    deletion is in the trace. *)
Theorem run_uncaught (self : SimulationThread) (ident : Z) (sim : @Simulation DataFrame) w :
  let func_hash := generate_cache_key (variables self) in
  let r := run generate_cache_key default_timeout self ident sim w in
  fst r <> KeyError /\
  (fst r = Uncaught <-> ending sim = RaisesOther) /\
  (ending sim = RaisesOther ->
     process_pool (snd r) !! ident = Some (uuid self) /\
     cache (snd r) !! finished_key func_hash = cache w !! finished_key func_hash /\
     ~ In (PoolDelete ident) (drop (length (trace w)) (trace (snd r)))).
Proof.
  intros func_hash r. subst r. rewrite run_unfold. fold func_hash.
  destruct (run_simulate_frame self ident sim w) as (Hp & _ & _ & Hc & evs & Ht & Hall).
  fold func_hash in Hc.
  set (s := run_simulate generate_cache_key default_timeout self sim (run_enter self ident w)) in *.
  destruct (ending sim) as [df | |]; simpl.
  - split; [discriminate|]. split; [split; discriminate | discriminate].
  - split; [discriminate|]. split; [split; discriminate | discriminate].
  - split; [discriminate|]. split; [split; reflexivity|]. intros _.
    split; [rewrite Hp; apply lookup_insert_eq|].
    split; [apply Hc, finished_key_not_results|].
    rewrite Ht, drop_app_length. intros [E | [E | Hin]]; try discriminate.
    rewrite Forall_forall in Hall. destruct (Hall _ (proj2 (list_elem_of_In _ _) Hin))
      as (k & v & t & E). discriminate.
Qed.

(** ** The rate of the throttled writes *)

Lemma added_length w w' (n : nat) :
  length (trace w') = length (trace w) + n -> added w w' = n.
Proof. unfold added. lia. Qed.

Lemma sim_step_elapse func_hash s (dt : Q) :
  sim_step default_timeout func_hash s (Elapse dt) =
    {| world := with_clock (clock (world s) + dt)%Q (world s);
       last_results := last_results s |}.
Proof. reflexivity. Qed.

Lemma sim_step_first_report func_hash s df (force : bool) :
  last_results s = None ->
  sim_step default_timeout func_hash s (Report df force) =
    {| world := cache_set default_timeout (results_key func_hash) (Frame df) (Some 30%Q)
                  (world s);
       last_results := Some (clock (world s)) |}.
Proof.
  intros Hnone. unfold sim_step, step_callback, publish_due. rewrite Hnone.
  now rewrite orb_true_r.
Qed.

(** From a state with an accepted write at [t], not in the future: [n] more
    writes take at least [n] half seconds. *)
Lemma throttle_from func_hash (l : list (@sim_action DataFrame)) :
  forall s (t : Q),
    last_results s = Some t ->
    (t <= clock (world s))%Q ->
    Forall unforced l ->
    exists (t' : Q) (n : nat),
      let s' := sim_steps default_timeout func_hash l s in
      last_results s' = Some t' /\
      (t' <= clock (world s'))%Q /\
      (clock (world s') == clock (world s) + total_elapsed l)%Q /\
      length (trace (world s')) = length (trace (world s)) + n /\
      (inject_Z (Z.of_nat n) * (1 # 2) <= t' - t)%Q.
Proof.
  induction l as [|a l IH]; intros s t Hlast Hle Hall.
  - exists t, 0%nat. cbv zeta. simpl.
    split; [exact Hlast|]. split; [exact Hle|]. split; [lra|]. split; [lia|].
    change (inject_Z (Z.of_nat 0)) with 0%Q. lra.
  - inversion Hall as [|a' l' Ha Hl]; subst.
    destruct a as [dt | df force]; simpl in Ha.
    + destruct (IH (sim_step default_timeout func_hash s (Elapse dt)) t)
        as (t' & n & Hl' & Hc' & Hclock & Hlen & Hrate);
        [exact Hlast | simpl; lra | exact Hl|].
      exists t', n. unfold sim_steps in *. simpl in *.
      repeat split; try assumption. lra.
    + subst force. unfold sim_steps in *. simpl fold_left.
      unfold sim_step at 2. unfold step_callback, publish_due. rewrite Hlast. simpl orb.
      destruct (Qlt_bool (1 # 2) (clock (world s) - t)) eqn:Hdue; simpl snd.
      * apply Qlt_bool_iff in Hdue.
        destruct (IH {| world := cache_set default_timeout (results_key func_hash)
                                   (Frame df) (Some 30%Q) (world s);
                        last_results := Some (clock (world s)) |} (clock (world s)))
          as (t' & n & Hl' & Hc' & Hclock & Hlen & Hrate);
          [reflexivity | simpl; lra | exact Hl|].
        exists t', (S n). simpl in *.
        repeat split; try assumption.
        -- rewrite Hlen, length_app. simpl. lia.
        -- rewrite Nat2Z.inj_succ. unfold Z.succ. rewrite inject_Z_plus. change (inject_Z 1) with 1%Q.
           lra.
      * destruct (IH s t) as (t' & n & Hl' & Hc' & Hclock & Hlen & Hrate);
          [exact Hlast | exact Hle | exact Hl|].
        exists t', n. simpl in *. repeat split; assumption.
Qed.

(** X4.  For a simulation whose clock does not run backwards and which never
    passes [force], starting before any write was accepted: if the callback
    wrote [n] times while the simulation let [T] seconds pass, then
    [(n - 1) / 2 <= T].  A hundred reports within 200 ms give one write. *)
Theorem throttle_rate (func_hash : string) (l : list (@sim_action DataFrame)) s :
  last_results s = None ->
  Forall unforced l ->
  let s' := sim_steps default_timeout func_hash l s in
  ((inject_Z (Z.of_nat (added (world s) (world s'))) - 1) * (1 # 2) <= total_elapsed l)%Q.
Proof.
  revert s. induction l as [|a l IH]; intros s Hnone Hall s'; subst s'.
  - unfold added. simpl. rewrite Nat.sub_diag.
    change (inject_Z (Z.of_nat 0)) with 0%Q. lra.
  - inversion Hall as [|a' l' Ha Hl]; subst.
    destruct a as [dt | df force]; simpl in Ha.
    + specialize (IH (sim_step default_timeout func_hash s (Elapse dt)) Hnone Hl).
      unfold sim_steps in *. simpl fold_left. simpl total_elapsed.
      change (added (world (sim_step default_timeout func_hash s (Elapse dt))))
        with (added (world s)) in IH.
      cbv zeta in IH. rewrite sim_step_elapse in IH. lra.
    + subst force. unfold sim_steps. cbn [fold_left]. simpl total_elapsed.
      rewrite (sim_step_first_report func_hash s df false Hnone).
      destruct (throttle_from func_hash l
                  {| world := cache_set default_timeout (results_key func_hash)
                                (Frame df) (Some 30%Q) (world s);
                     last_results := Some (clock (world s)) |} (clock (world s)))
        as (t' & n & Hl' & Hc' & Hclock & Hlen & Hrate);
        [reflexivity | simpl; lra | exact Hl|].
      cbv zeta in *. unfold sim_steps in *. simpl in Hclock, Hlen.
      rewrite (added_length _ _ (S n)).
      * rewrite Nat2Z.inj_succ. unfold Z.succ. rewrite inject_Z_plus. change (inject_Z 1) with 1%Q. lra.
      * rewrite Hlen, length_app. simpl. lia.
Qed.

(** ** Polling and launching *)

(** X5.  The poll only reads: it leaves the cache, the session, the started
    processes, the pool and the clock as they are, and adds to the trace at
    most two reads, of ['%s-results'] and then ['%s-finished'] of the hash of
    the session. *)
Theorem update_simulation_results_reads_only w :
  let func_hash := generate_cache_key (session w) in
  let w' := snd (update_simulation_results generate_cache_key w) in
  cache w' = cache w /\ session w' = session w /\ started w' = started w /\
  process_pool w' = process_pool w /\ clock w' = clock w /\
  (trace w' = trace w \/
   trace w' = trace w ++ [CacheGet (results_key func_hash)] \/
   trace w' = trace w ++ [CacheGet (results_key func_hash);
                          CacheGet (finished_key func_hash)]).
Proof.
  intros func_hash w'. subst w'. unfold update_simulation_results.
  destruct (thread_id (session w)); [|repeat split; now left].
  fold func_hash. simpl.
  destruct (cache_read (results_key func_hash) w); [|repeat split; right; now left].
  destruct (truthy_cached _); simpl; repeat split; right; right;
    now rewrite <- app_assoc.
Qed.

Hypothesis set_variable_thread_id :
  forall (name : string) (value : pyval) (s : Session),
    name <> "thread_id" -> thread_id (set_variable name value s) = thread_id s.

Lemma store_inputs_binding n_clicks simulation_days w :
  let w1 := store_inputs set_variable n_clicks simulation_days w in
  thread_id (session w1) = thread_id (session w) /\
  process_pool w1 = process_pool w /\ cache w1 = cache w /\
  started w1 = started w /\ clock w1 = clock w /\ trace w1 = trace w.
Proof using set_variable_thread_id.
  unfold store_inputs. destruct n_clicks as [n|]; [destruct (n =? 0)%Z|]; simpl;
    repeat rewrite set_variable_thread_id by discriminate; repeat split.
Qed.

(** The world a launch leaves when nothing is cached and nothing restricted. *)
Lemma run_simulation_callback_unfold (n_clicks : option Z) (simulation_days : Z)
    (new_uuid : string) w :
  let w1 := store_inputs set_variable n_clicks simulation_days w in
  simulate_individuals_only_if_in_cache (session w1) (cache w1) (clock w1) = None ->
  RESTRICT_TO_PRESET_SCENARIOS = false ->
  run_simulation_callback default_timeout RESTRICT_TO_PRESET_SCENARIOS
    set_variable simulate_individuals_only_if_in_cache
    n_clicks simulation_days new_uuid w =
  let w2 := kill_existing default_timeout w1 in
  (Polling 500 60,
   log (ProcessStart new_uuid)
     (with_started (started w2 ++ [{| variables := session w2; uuid := new_uuid |}])
        (with_session (set_thread_id new_uuid (session w2)) w2))).
Proof.
  intros w1 Hmiss Hfree. unfold run_simulation_callback. fold w1.
  now rewrite Hmiss, Hfree.
Qed.

(** X6.  Two launches in a row for one session, neither finding a cached
    result: the second writes [True] under ['thread-%s-kill'] of the uuid the
    first one started, with no timeout, then starts its own process and
    rebinds the session; both processes are in the list of started ones, and
    the first is not otherwise told to stop. *)
Theorem relaunch_kills_previous (n1 n2 : option Z) (days1 days2 : Z)
    (uuid1 uuid2 : string) (later : Q) w :
  let wa := store_inputs set_variable n1 days1 w in
  let ra := run_simulation_callback default_timeout RESTRICT_TO_PRESET_SCENARIOS
              set_variable simulate_individuals_only_if_in_cache n1 days1 uuid1 w in
  let w2 := with_clock later (snd ra) in
  let wb := store_inputs set_variable n2 days2 w2 in
  let rb := run_simulation_callback default_timeout RESTRICT_TO_PRESET_SCENARIOS
              set_variable simulate_individuals_only_if_in_cache n2 days2 uuid2 w2 in
  RESTRICT_TO_PRESET_SCENARIOS = false ->
  simulate_individuals_only_if_in_cache (session wa) (cache wa) (clock wa) = None ->
  simulate_individuals_only_if_in_cache (session wb) (cache wb) (clock wb) = None ->
  uuid1 <> EmptyString ->
  fst rb = Polling 500 60 /\
  trace (snd rb) = trace (snd ra) ++
    [CacheSet (kill_key uuid1) (Flag true) None; ProcessStart uuid2] /\
  cache (snd rb) !! kill_key uuid1 = Some (Flag true, (later + default_timeout)%Q) /\
  thread_id (session (snd rb)) = Some uuid2 /\
  uuid <$> started (snd rb) = (uuid <$> started w) ++ [uuid1; uuid2].
Proof using set_variable_thread_id.
  intros wa ra w2 wb rb Hfree Hmiss1 Hmiss2 Hne.
  assert (Hra : thread_id (session (snd ra)) = Some uuid1 /\
                uuid <$> started (snd ra) = (uuid <$> started w) ++ [uuid1]).
  { subst ra. rewrite (run_simulation_callback_unfold n1 days1 uuid1 w Hmiss1 Hfree).
    cbv zeta. simpl. split; [reflexivity|].
    rewrite fmap_app. simpl. f_equal. f_equal.
    destruct (store_inputs_binding n1 days1 w) as (_ & _ & _ & Hst & _).
    unfold kill_existing. fold wa.
    destruct (thread_id (session wa)) as [x|]; [destruct (truthy_str x)|]; exact Hst. }
  destruct Hra as (Hid & Hstarted).
  destruct (store_inputs_binding n2 days2 w2) as (Hb & _ & Hc & Hst & Hk & Ht).
  fold wb in Hb, Hc, Hst, Hk, Ht.
  assert (Hkill : kill_existing default_timeout wb =
                  cache_set default_timeout (kill_key uuid1) (Flag true) None wb).
  { unfold kill_existing. rewrite Hb. subst w2. simpl. rewrite Hid.
    destruct uuid1; [congruence | reflexivity]. }
  subst rb. rewrite (run_simulation_callback_unfold n2 days2 uuid2 w2 Hmiss2 Hfree).
  fold wb. cbv zeta. rewrite Hkill. simpl.
  split; [reflexivity|]. split; [|split; [|split; [reflexivity|]]].
  - rewrite Ht. subst w2. simpl. now rewrite <- app_assoc.
  - rewrite lookup_insert_eq, Hk. subst w2. reflexivity.
  - rewrite fmap_app, Hst. subst w2. simpl. rewrite Hstarted.
    now rewrite <- app_assoc.
Qed.

(** X7.  After a run whose simulation returned [df], a poll for the same hash
    made less than 30 seconds, and less than the default timeout, after the
    end of the run shows [df] and disables the polling. *)
Theorem finished_run_poll (self : SimulationThread) (ident : Z)
    (l : list (@sim_action DataFrame)) df w w0 (id : string) :
  let func_hash := generate_cache_key (variables self) in
  let w' := snd (run generate_cache_key default_timeout self ident
                   {| actions := l; ending := Returns df |} w) in
  cache w0 = cache w' ->
  thread_id (session w0) = Some id ->
  generate_cache_key (session w0) = func_hash ->
  (clock w0 < clock w' + 30)%Q ->
  (clock w0 < clock w' + default_timeout)%Q ->
  fst (update_simulation_results generate_cache_key w0) = Outputs (Frame df) true.
Proof.
  intros func_hash w'. subst w'. rewrite run_unfold. fold func_hash. simpl.
  intros Hcache Hid Hhash Hlive Hflag.
  set (s := run_simulate generate_cache_key default_timeout self
              {| actions := l; ending := Returns df |} (run_enter self ident w)) in *.
  rewrite (update_simulation_results_bound generate_cache_key w0 id Hid). cbv zeta.
  rewrite Hhash.
  rewrite (cache_read_live (results_key func_hash) w0 (Frame df)
             (clock (world s) + 30)%Q); [| |exact Hlive].
  - rewrite (cache_read_live (finished_key func_hash) w0 (Flag true)
               (clock (world s) + default_timeout)%Q);
      [reflexivity | | exact Hflag].
    rewrite Hcache. apply lookup_insert_eq.
  - rewrite Hcache. rewrite lookup_insert_ne by apply finished_key_not_results.
    apply lookup_insert_eq.
Qed.


End JobProperties.

(** * Properties of the page callbacks *)

Section UrlProperties.

Import Url.

Lemma lstrip_slashes (n : nat) (s : string) :
  lstrip "/" (slashes n +:+ s) = lstrip "/" s.
Proof. induction n as [|n IH]; [reflexivity|]. exact IH. Qed.

Lemma rstrip_slashes (n : nat) : rstrip "/" (slashes n) = EmptyString.
Proof. induction n as [|n IH]; [reflexivity|]. simpl. now rewrite IH. Qed.

Lemma rstrip_cons (c a : ascii) (s : string) :
  Ascii.eqb a c = false -> rstrip c (String a s) = String a (rstrip c s).
Proof. intros Hne. simpl. destruct (rstrip c s); [now rewrite Hne | reflexivity]. Qed.

Lemma strip_language (code : string) (n m : nat) :
  code = "en" \/ code = "fi" ->
  strip "/" (slashes n +:+ code +:+ slashes m) = code.
Proof.
  intros [-> | ->]; unfold strip; rewrite lstrip_slashes.
  - change (rstrip "/" (String "e" (String "n" (slashes m))) = "en").
    rewrite !rstrip_cons by reflexivity. now rewrite rstrip_slashes.
  - change (rstrip "/" (String "f" (String "i" (slashes m))) = "fi").
    rewrite !rstrip_cons by reflexivity. now rewrite rstrip_slashes.
Qed.

Lemma prefix_append (p rest : string) : String.prefix p (p +:+ rest) = true.
Proof.
  induction p as [|c p IH]; [now destruct rest|].
  change (String.prefix (String c p) (String c (p +:+ rest)) = true).
  simpl. destruct (ascii_dec c c); [exact IH | congruence].
Qed.

Lemma string_drop_append (p rest : string) :
  string_drop (String.length p) (p +:+ rest) = rest.
Proof. induction p as [|c p IH]; [reflexivity | exact IH]. Qed.

(** X9.  [url_callback] returns the page only inside a request context and
    only when it has changed the language of the session, and the language
    it stores is ['en'] or ['fi']; whenever it does not return the page, the
    language of the session is what it was. *)
Theorem url_callback_language (URL_PREFIX : option string) (has_request_context : bool)
    (pathname language : option string) :
  let r := url_callback URL_PREFIX has_request_context pathname language in
  (fst r = Page ->
     has_request_context = true /\ snd r <> language /\
     (snd r = Some "en" \/ snd r = Some "fi")) /\
  (fst r <> Page -> snd r = language).
Proof.
  intros r. subst r. unfold url_callback.
  destruct (without_prefix URL_PREFIX pathname) as [p|]; [|split; [discriminate | reflexivity]].
  destruct (_ && _ && _) eqn:Hcond; simpl; [|split; [discriminate | reflexivity]].
  apply andb_prop in Hcond as [Hcond Hnew]. apply andb_prop in Hcond as [Hcode Hctx].
  split; [|congruence]. intros _. split; [exact Hctx|]. split.
  - apply negb_true_iff, bool_decide_eq_false in Hnew. congruence.
  - apply orb_prop in Hcode as [H | H]; apply String.eqb_eq in H; rewrite H; auto.
Qed.

(** X10.  Following the same link twice does nothing the second time: after
    a call that did not fail, a call with the same arguments raises
    [PreventUpdate] and leaves the language. *)
Theorem url_callback_twice (URL_PREFIX : option string) (has_request_context : bool)
    (pathname language : option string) :
  let r := url_callback URL_PREFIX has_request_context pathname language in
  fst r <> AttributeError ->
  url_callback URL_PREFIX has_request_context pathname (snd r) = (PreventUpdate, snd r).
Proof.
  intros r. subst r. unfold url_callback.
  destruct (without_prefix URL_PREFIX pathname) as [p|]; [|simpl; congruence].
  intros _. set (q := normalize p).
  destruct ((String.eqb q "en" || String.eqb q "fi") && has_request_context
            && negb (bool_decide (language = Some q))) eqn:Hcond; simpl.
  - rewrite bool_decide_eq_true_2 by reflexivity. simpl. now rewrite andb_false_r.
  - now rewrite Hcond.
Qed.

(** X11.  Slashes around the language code do not matter: with no prefix in
    force, inside a request context, any path made of slashes, ['en'] or
    ['fi'], and slashes switches a session that has another language (or
    none) to that language and returns the page. *)
Theorem url_callback_slashes (URL_PREFIX : option string) (code : string) (n m : nat)
    (language : option string) :
  URL_PREFIX = None \/ URL_PREFIX = Some EmptyString ->
  code = "en" \/ code = "fi" ->
  language <> Some code ->
  url_callback URL_PREFIX true (Some (slashes n +:+ code +:+ slashes m)) language
  = (Page, Some code).
Proof.
  intros Hprefix Hcode Hnew. unfold url_callback.
  assert (Hwo : without_prefix URL_PREFIX (Some (slashes n +:+ code +:+ slashes m))
                = Some (Some (slashes n +:+ code +:+ slashes m))).
  { destruct Hprefix as [-> | ->]; reflexivity. }
  rewrite Hwo. unfold normalize. rewrite (strip_language code n m Hcode).
  rewrite (bool_decide_eq_false_2 _ Hnew).
  destruct Hcode as [-> | ->]; reflexivity.
Qed.

(** X12.  With a prefix configured, a path that starts with the prefix is
    handled as the rest of the path is without any prefix, and a path that
    does not start with it is handled as it is: the prefix may be left out. *)
Theorem url_callback_prefix (prefix rest : string) (has_request_context : bool)
    (pathname : string) (language : option string) :
  prefix <> EmptyString ->
  url_callback (Some prefix) has_request_context (Some (prefix +:+ rest)) language
  = url_callback None has_request_context (Some rest) language /\
  (String.prefix prefix pathname = false ->
   url_callback (Some prefix) has_request_context (Some pathname) language
   = url_callback None has_request_context (Some pathname) language).
Proof.
  intros Hne. unfold url_callback, without_prefix.
  destruct prefix as [|c p]; [congruence|]. simpl truthy_str. cbv iota. split.
  - now rewrite prefix_append, string_drop_append.
  - intros ->. reflexivity.
Qed.

(** X13.  [url_callback] fails with [AttributeError] exactly when a
    non-empty prefix is configured and the path is [None]; with no prefix, a
    path of [None] raises [PreventUpdate] like any path that names no
    language. *)
Theorem url_callback_none (URL_PREFIX : option string) (has_request_context : bool)
    (pathname language : option string) :
  let r := url_callback URL_PREFIX has_request_context pathname language in
  (fst r = AttributeError <->
   pathname = None /\ exists prefix, URL_PREFIX = Some prefix /\ prefix <> EmptyString) /\
  (URL_PREFIX = None -> pathname = None -> r = (PreventUpdate, language)).
Proof.
  intros r. subst r. unfold url_callback, without_prefix. split.
  - destruct URL_PREFIX as [[|c p]|]; simpl truthy_str; cbv iota.
    + split; [|intros (_ & q & [= <-] & Hq); congruence].
      destruct (_ && _ && _); simpl; discriminate.
    + destruct pathname as [path|]; simpl.
      * split; [|intros (H & _); discriminate].
        destruct (_ && _ && _); simpl; discriminate.
      * split; [|reflexivity]. intros _. split; [reflexivity|].
        exists (String c p). split; [reflexivity | discriminate].
    + split; [|intros (_ & q & H & _); discriminate].
      destruct (_ && _ && _); simpl; discriminate.
  - intros -> ->. reflexivity.
Qed.

End UrlProperties.

(** ** Sorting by a string key *)

Lemma leb_le (a b : string) :
  String.leb a b = true <-> a = b \/ String_as_OT.lt a b.
Proof.
  unfold String.leb. destruct (String.compare a b) eqn:E.
  - apply String_as_OT.cmp_eq in E. split; [now left | reflexivity].
  - apply String_as_OT.cmp_lt in E. split; [now right | reflexivity].
  - split; [discriminate|]. intros [-> | Hlt].
    + assert (H : String.compare b b = Eq) by now apply String_as_OT.cmp_eq.
      congruence.
    + apply String_as_OT.cmp_lt in Hlt. unfold String_as_OT.cmp in Hlt. congruence.
Qed.

Lemma leb_refl (a : string) : String.leb a a = true.
Proof. apply leb_le. now left. Qed.

Lemma leb_trans (a b c : string) :
  String.leb a b = true -> String.leb b c = true -> String.leb a c = true.
Proof.
  rewrite !leb_le. intros [-> | Hab] [-> | Hbc]; auto.
  right. exact (String_as_OT.lt_trans _ _ _ Hab Hbc).
Qed.

Lemma leb_false_le (a b : string) : String.leb a b = false -> String.leb b a = true.
Proof. intros H. destruct (String.leb_total a b) as [H' | H']; congruence. Qed.

Section Sorted.

Context {A : Type} (key : A -> string).

Lemma insert_by_perm (x : A) (l : list A) : insert_by key x l ≡ₚ x :: l.
Proof.
  induction l as [|y l IH]; simpl; [reflexivity|].
  destruct (String.leb (key x) (key y)); [reflexivity|].
  rewrite IH. apply Permutation_swap.
Qed.

Lemma sorted_perm (l : list A) : sorted key l ≡ₚ l.
Proof.
  induction l as [|x l IH]; simpl; [reflexivity|].
  now rewrite insert_by_perm, IH.
Qed.

Lemma insert_by_sorted (x : A) (l : list A) :
  StronglySorted (key_le key) l -> StronglySorted (key_le key) (insert_by key x l).
Proof.
  induction l as [|y l IH]; intros Hs; simpl.
  - repeat constructor.
  - apply StronglySorted_cons in Hs as [Hy Hl].
    destruct (String.leb (key x) (key y)) eqn:Hxy.
    + apply StronglySorted_cons. split.
      * constructor; [exact Hxy|].
        eapply Forall_impl; [exact Hy|]. intros z Hz. exact (leb_trans _ _ _ Hxy Hz).
      * apply StronglySorted_cons. now split.
    + apply StronglySorted_cons. split; [|now apply IH].
      rewrite insert_by_perm. constructor; [|exact Hy].
      now apply leb_false_le.
Qed.

Lemma sorted_sorted (l : list A) : StronglySorted (key_le key) (sorted key l).
Proof.
  induction l as [|x l IH]; simpl; [constructor|]. now apply insert_by_sorted.
Qed.

Lemma sorted_of_sorted (l : list A) :
  StronglySorted (key_le key) l -> sorted key l = l.
Proof.
  induction l as [|x l IH]; intros Hs; [reflexivity|].
  apply StronglySorted_cons in Hs as [Hx Hl]. simpl. rewrite (IH Hl).
  destruct l as [|y l]; [reflexivity|]. simpl.
  apply Forall_cons in Hx as [Hxy _]. unfold key_le in Hxy. now rewrite Hxy.
Qed.

Lemma key_inj_elem (l : list A) (x y : A) :
  NoDup (key <$> l) -> x ∈ l -> y ∈ l -> key x = key y -> x = y.
Proof.
  induction l as [|z l IH]; intros Hnd Hx Hy Hk; [now apply elem_of_nil in Hx|].
  rewrite fmap_cons in Hnd. apply NoDup_cons in Hnd as [Hz Hnd].
  apply elem_of_cons in Hx as [-> | Hx]; apply elem_of_cons in Hy as [-> | Hy].
  - reflexivity.
  - exfalso. apply Hz. rewrite Hk. now apply list_elem_of_fmap_2.
  - exfalso. apply Hz. rewrite <- Hk. now apply list_elem_of_fmap_2.
  - now apply IH.
Qed.

Lemma sorted_lists_equal (l1 l2 : list A) :
  StronglySorted (key_le key) l1 -> StronglySorted (key_le key) l2 ->
  l1 ≡ₚ l2 -> NoDup (key <$> l1) -> l1 = l2.
Proof.
  revert l2. induction l1 as [|x l1 IH]; intros l2 Hs1 Hs2 Hp Hnd.
  - now apply Permutation_nil_l in Hp.
  - destruct l2 as [|y l2]; [now apply Permutation_nil_r in Hp|].
    assert (Hxy : x = y).
    { apply StronglySorted_cons in Hs1 as [Hx1 _].
      apply StronglySorted_cons in Hs2 as [Hy2 _].
      rewrite Forall_forall in Hx1, Hy2.
      assert (Hx : x ∈ y :: l2) by (rewrite <- Hp; now left).
      assert (Hy : y ∈ x :: l1) by (rewrite Hp; now left).
      apply (key_inj_elem (x :: l1)); [exact Hnd | now left | exact Hy|].
      apply String.leb_antisym.
      - apply elem_of_cons in Hy as [-> | Hy]; [apply leb_refl | now apply Hx1].
      - apply elem_of_cons in Hx as [-> | Hx]; [apply leb_refl | now apply Hy2]. }
    subst y. f_equal.
    apply StronglySorted_cons in Hs1 as [_ Hs1].
    apply StronglySorted_cons in Hs2 as [_ Hs2].
    rewrite fmap_cons in Hnd. apply NoDup_cons in Hnd as [_ Hnd].
    apply IH; try assumption. now apply Permutation_cons_inv in Hp.
Qed.

Lemma sorted_unique (l1 l2 : list A) :
  l1 ≡ₚ l2 -> NoDup (key <$> l1) -> sorted key l1 = sorted key l2.
Proof.
  intros Hp Hnd. apply sorted_lists_equal; try apply sorted_sorted.
  - now rewrite !sorted_perm.
  - now rewrite sorted_perm.
Qed.

Lemma omap_sorted {B : Type} (key' : B -> string) (f : A -> option B) (l : list A) :
  (forall a b, f a = Some b -> key' b = key a) ->
  StronglySorted (key_le key) l -> StronglySorted (key_le key') (omap f l).
Proof.
  intros Hkey. induction l as [|x l IH]; intros Hs; [constructor|].
  apply StronglySorted_cons in Hs as [Hx Hl]. simpl.
  destruct (f x) as [y|] eqn:Hfx; [|now apply IH].
  apply StronglySorted_cons. split; [|now apply IH].
  apply Forall_forall. intros b Hb.
  apply list_elem_of_omap in Hb as (a & Ha & Hfa).
  rewrite Forall_forall in Hx. specialize (Hx a Ha).
  unfold key_le in *. now rewrite (Hkey _ _ Hfx), (Hkey _ _ Hfa).
Qed.

End Sorted.

Section InterventionsProperties.

Set Default Proof Using "Type".

Import Interventions.

Variable INTERVENTIONS : list Intervention.
Variable default_interventions : list Iv.
Variable fromisoformat : string -> option Z.
Variable isoformat : Z -> string.
Variable int : string -> option Z.

(** ** [interventions_to_rows] *)

Lemma find_intervention_some (t : string) (i : Intervention) :
  find_intervention INTERVENTIONS t = Some i -> i ∈ INTERVENTIONS /\ type i = t.
Proof.
  unfold find_intervention. intros H. apply find_some in H as [Hin Heq].
  split; [now apply list_elem_of_In | now apply String.eqb_eq].
Qed.

Lemma find_intervention_none (t : string) :
  find_intervention INTERVENTIONS t = None ->
  forall i, i ∈ INTERVENTIONS -> type i <> t.
Proof.
  unfold find_intervention. intros H i Hi.
  apply list_elem_of_In in Hi. apply (find_none _ _ H) in Hi.
  now apply String.eqb_neq.
Qed.

Lemma to_row_some (iv : Iv) (r : Row) :
  to_row INTERVENTIONS iv = Some r ->
  exists i, find_intervention INTERVENTIONS (iv0 iv) = Some i /\
    row_name r = iv0 iv /\ row_date r = iv1 iv /\ row_label r = label i /\
    row_value r = match iv_rest iv with v :: _ => v | [] => PyNone end /\
    row_unit r = match parameters i with p :: _ => p | [] => None end.
Proof.
  unfold to_row. destruct (find_intervention INTERVENTIONS (iv0 iv)) as [i|] eqn:Hf;
    [|discriminate].
  intros [= <-]. exists i. simpl.
  destruct (find_intervention_some _ _ Hf) as [_ Ht]. now repeat split.
Qed.

(** X14.  The rows of the table are in the order of their dates, compared as
    strings. *)
Theorem interventions_to_rows_sorted (ivs : list Iv) :
  StronglySorted (key_le row_date) (interventions_to_rows INTERVENTIONS ivs).
Proof.
  unfold interventions_to_rows. apply (omap_sorted iv1); [|apply sorted_sorted].
  intros iv r Hr. apply to_row_some in Hr as (i & _ & _ & Hd & _). exact Hd.
Qed.

(** X15.  The table has a row for an intervention exactly when its type is
    the type of an entry of [INTERVENTIONS]: every row carries the type and
    date of one of the interventions and the label of an entry of that type,
    every intervention of a known type has its row, interventions of other
    types are left out without an error, and no row is invented. *)
Theorem interventions_to_rows_known (ivs : list Iv) :
  let rows := interventions_to_rows INTERVENTIONS ivs in
  (forall r, r ∈ rows ->
     exists iv i, iv ∈ ivs /\ i ∈ INTERVENTIONS /\ type i = iv0 iv /\
       row_name r = iv0 iv /\ row_date r = iv1 iv /\ row_label r = label i) /\
  (forall iv i, iv ∈ ivs -> i ∈ INTERVENTIONS -> type i = iv0 iv ->
     exists r, r ∈ rows /\ row_name r = iv0 iv /\ row_date r = iv1 iv /\
       row_value r = match iv_rest iv with v :: _ => v | [] => PyNone end) /\
  length rows <= length ivs /\
  ((forall iv i, iv ∈ ivs -> i ∈ INTERVENTIONS -> type i <> iv0 iv) -> rows = []).
Proof.
  intros rows. subst rows. unfold interventions_to_rows. repeat split.
  - intros r Hr. apply list_elem_of_omap in Hr as (iv & Hiv & Hrow).
    rewrite sorted_perm in Hiv.
    apply to_row_some in Hrow as (i & Hf & Hn & Hd & Hl & _).
    destruct (find_intervention_some _ _ Hf) as [Hi Ht].
    now exists iv, i.
  - intros iv i Hiv Hi Ht.
    destruct (to_row INTERVENTIONS iv) as [r|] eqn:Hrow.
    + exists r. split.
      * apply list_elem_of_omap. exists iv. split; [now rewrite sorted_perm | exact Hrow].
      * apply to_row_some in Hrow as (j & _ & Hn & Hd & _ & Hv & _). now repeat split.
    + exfalso. unfold to_row in Hrow.
      destruct (find_intervention INTERVENTIONS (iv0 iv)) eqn:Hf; [discriminate|].
      exact (find_intervention_none _ Hf i Hi Ht).
  - rewrite <- (Permutation_length (sorted_perm iv1 ivs)).
    generalize (sorted iv1 ivs). intros l.
    induction l as [|x l IH]; simpl; [apply le_n|].
    destruct (to_row INTERVENTIONS x); simpl; [now apply le_n_S | now apply le_S].
  - intros Hunknown.
    assert (Hall : forall l, (forall iv, iv ∈ l -> iv ∈ ivs) -> omap (to_row INTERVENTIONS) l = []).
    { induction l as [|x l IH]; intros Hl; [reflexivity|]. simpl.
      destruct (to_row INTERVENTIONS x) as [r|] eqn:Hrow.
      - apply to_row_some in Hrow as (i & Hf & _).
        destruct (find_intervention_some _ _ Hf) as [Hi Ht].
        exfalso. apply (Hunknown x i); [apply Hl; now left | exact Hi | exact Ht].
      - apply IH. intros iv Hiv. apply Hl. now right. }
    apply Hall. intros iv Hiv. now rewrite sorted_perm in Hiv.
Qed.

(** X16.  When no two interventions have the same date, the table does not
    depend on the order in which the variable lists them. *)
Theorem interventions_to_rows_permutation (ivs ivs' : list Iv) :
  ivs ≡ₚ ivs' ->
  NoDup (iv1 <$> ivs) ->
  interventions_to_rows INTERVENTIONS ivs = interventions_to_rows INTERVENTIONS ivs'.
Proof.
  intros Hp Hnd. unfold interventions_to_rows. now rewrite (sorted_unique iv1 ivs ivs').
Qed.

(** ** [interventions_callback] *)

Lemma rows_to_ivs_ok (rows : list TableRow) (ivs : list Iv) :
  rows_to_ivs int rows = Ok ivs ->
  (fun iv => (iv0 iv, iv1 iv)) <$> ivs = (fun r => (name r, date r)) <$> rows /\
  Forall stored_iv ivs.
Proof.
  revert ivs. induction rows as [|r rows IH]; intros ivs; simpl.
  - intros [= <-]. split; [reflexivity | constructor].
  - destruct (match value r with
              | PyStr s => match int s with Some n => Ok (PyInt n) | None => Raise ValueError end
              | val => Ok val
              end) as [val|e] eqn:Hval; simpl; [|discriminate].
    destruct (rows_to_ivs int rows) as [ivs'|e]; simpl; [|discriminate].
    intros [= <-]. destruct (IH ivs' eq_refl) as [Hk Hall].
    split; [rewrite !fmap_cons, Hk; reflexivity|].
    constructor; [|exact Hall]. exists val. split; [reflexivity|].
    intros s ->. destruct (value r) as [| | |s']; try discriminate.
    destruct (int s'); discriminate.
Qed.

Lemma rows_to_ivs_plain (rows : list TableRow) :
  Forall (fun r => converted (value r)) rows ->
  rows_to_ivs int rows =
    Ok ((fun r => {| iv0 := name r; iv1 := date r; iv_rest := [value r] |}) <$> rows).
Proof.
  induction rows as [|r rows IH]; intros Hall; [reflexivity|].
  apply Forall_cons in Hall as [Hr Hall]. simpl. rewrite (IH Hall).
  destruct (value r) as [| | |s] eqn:Hv; try reflexivity.
  exfalso. exact (Hr s eq_refl).
Qed.

Lemma sorted_by_keys {A B : Type} (key : A -> string) (key' : B -> string)
    (l : list A) (l' : list B) :
  key <$> l = key' <$> l' ->
  StronglySorted (key_le key) l -> StronglySorted (key_le key') l'.
Proof.
  revert l'. induction l as [|x l IH]; intros [|y l'] Hk Hs; try discriminate.
  - constructor.
  - rewrite !fmap_cons in Hk. injection Hk as Hxy Hk.
    apply StronglySorted_cons in Hs as [Hx Hs].
    apply StronglySorted_cons. split; [|now apply (IH l')].
    apply Forall_forall. intros b Hb.
    assert (Hkb : key' b ∈ key <$> l) by (rewrite Hk; now apply list_elem_of_fmap_2).
    apply list_elem_of_fmap in Hkb as (a & Ha & Hal).
    rewrite Forall_forall in Hx. specialize (Hx a Hal).
    unfold key_le in *. now rewrite <- Hxy, Ha.
Qed.

(** The callback when the table itself is the trigger. *)
Lemma interventions_callback_table (reset_clicks add_intervention_clicks : option Z)
    (rows : list TableRow) (new_date new_id : option string) (new_val : option Z)
    (v : Variables) :
  interventions_callback INTERVENTIONS default_interventions fromisoformat isoformat int
    (Some "interventions-table") reset_clicks add_intervention_clicks rows
    new_date new_id new_val v =
  match rows_to_ivs int (sorted date rows) with
  | Raise e => (Raise e, v)
  | Ok ivs => (Ok (interventions_to_rows INTERVENTIONS ivs), set_interventions ivs v)
  end.
Proof.
  unfold interventions_callback.
  rewrite (bool_decide_eq_false_2 (Some "interventions-table" = Some "interventions-reset-defaults"))
    by discriminate.
  rewrite (bool_decide_eq_false_2 (Some "interventions-table" = Some "new-intervention-add"))
    by discriminate.
  rewrite (bool_decide_eq_true_2 (Some "interventions-table" = Some "interventions-table"))
    by reflexivity.
  rewrite !andb_false_r. simpl.
  destruct (rows_to_ivs int (sorted date rows)); reflexivity.
Qed.

(** The callback when the add button is the trigger, with a click count. *)
Lemma interventions_callback_add (reset_clicks : option Z) (clicks : Z)
    (rows : list TableRow) (new_date new_id : option string) (new_val : option Z)
    (v : Variables) :
  interventions_callback INTERVENTIONS default_interventions fromisoformat isoformat int
    (Some "new-intervention-add") reset_clicks (Some clicks) rows
    new_date new_id new_val v =
  match add_row fromisoformat isoformat rows new_date new_id new_val v with
  | Raise e => (Raise e, v)
  | Ok rows1 =>
      match rows_to_ivs int (sorted date rows1) with
      | Raise e => (Raise e, v)
      | Ok ivs => (Ok (interventions_to_rows INTERVENTIONS ivs), set_interventions ivs v)
      end
  end.
Proof.
  unfold interventions_callback.
  rewrite (bool_decide_eq_false_2 (Some "new-intervention-add" = Some "interventions-reset-defaults"))
    by discriminate.
  rewrite (bool_decide_eq_false_2 (Some "new-intervention-add" = Some "interventions-table"))
    by discriminate.
  rewrite (bool_decide_eq_true_2 (Some "new-intervention-add" = Some "new-intervention-add"))
    by reflexivity.
  rewrite (bool_decide_eq_true_2 (is_Some (Some clicks))) by eauto.
  rewrite !andb_false_r. simpl.
  destruct (add_row fromisoformat isoformat rows new_date new_id new_val v) as [rows1|e];
    [|reflexivity].
  destruct (rows_to_ivs int (sorted date rows1)); reflexivity.
Qed.

(** X17.  Whenever [interventions_callback] raises (a [PreventUpdate], a
    [TypeError] of a comparison with [None], a [ValueError] of a date or of
    a value that is no number), the variables are what they were: nothing is
    half stored. *)
Theorem interventions_callback_raise (triggered : option string)
    (reset_clicks add_intervention_clicks : option Z) (rows : list TableRow)
    (new_date new_id : option string) (new_val : option Z) (v : Variables)
    (e : exception) :
  let r := interventions_callback INTERVENTIONS default_interventions fromisoformat
             isoformat int triggered reset_clicks add_intervention_clicks rows
             new_date new_id new_val v in
  fst r = Raise e -> snd r = v.
Proof.
  intros r. subst r. unfold interventions_callback.
  destruct (bool_decide (is_Some reset_clicks) &&
            bool_decide (triggered = Some "interventions-reset-defaults")) eqn:Hreset.
  - apply andb_prop in Hreset as [_ Ht]. apply bool_decide_eq_true in Ht. subst triggered.
    rewrite (bool_decide_eq_false_2
               (Some "interventions-reset-defaults" = Some "new-intervention-add"))
      by discriminate.
    rewrite andb_false_r. simpl. discriminate.
  - destruct (if bool_decide (is_Some add_intervention_clicks) &&
                 bool_decide (triggered = Some "new-intervention-add")
              then add_row fromisoformat isoformat rows new_date new_id new_val v
              else Ok rows) as [rows1|e1]; [|reflexivity].
    destruct (negb false && _); [|simpl; discriminate].
    destruct (rows_to_ivs int (sorted date rows1)); [simpl; discriminate | reflexivity].
Qed.

Lemma check_new_ok (new_id : option string) (new_val : option Z) (val : pyval) :
  check_new new_id new_val = Ok val ->
  (new_id = Some "test-all-with-symptoms" /\ val = PyNone) \/
  (new_id = Some "limit-mobility" /\
   exists x, new_val = Some x /\ (0 <= x <= 100)%Z /\ val = PyInt x) \/
  ((new_id = Some "limit-mass-gatherings" \/ new_id = Some "import-infections" \/
    new_id = Some "build-new-icu-units" \/ new_id = Some "build-new-hospital-beds") /\
   exists x, new_val = Some x /\ (0 <= x)%Z /\ val = PyInt x).
Proof.
  unfold check_new.
  destruct (bool_decide (new_id = Some "test-all-with-symptoms")) eqn:H1.
  { apply bool_decide_eq_true in H1. intros [= <-]. now left. }
  destruct (bool_decide (new_id = Some "limit-mobility")) eqn:H2.
  { apply bool_decide_eq_true in H2. destruct new_val as [x|]; [|discriminate].
    destruct ((100 <? x)%Z || (x <? 0)%Z) eqn:Hx; [discriminate|].
    apply orb_false_elim in Hx as [Hhi Hlo].
    apply Z.ltb_ge in Hhi, Hlo.
    intros [= <-]. right; left. split; [exact H2|]. exists x. now repeat split. }
  destruct (_ || _ || _ || _) eqn:H3; [|discriminate].
  destruct new_val as [x|]; [|discriminate].
  destruct (x <? 0)%Z eqn:Hlo; [discriminate|]. apply Z.ltb_ge in Hlo.
  intros [= <-]. right; right. split; [|exists x; now repeat split].
  repeat (apply orb_prop in H3 as [H3 | H3]); apply bool_decide_eq_true in H3; auto.
Qed.

Lemma add_row_ok (rows rows1 : list TableRow) (new_date new_id : option string)
    (new_val : option Z) (v : Variables) :
  add_row fromisoformat isoformat rows new_date new_id new_val v = Ok rows1 ->
  exists (text id : string) (d sstart : Z) (val : pyval),
    new_date = Some text /\ fromisoformat text = Some d /\
    fromisoformat (start_date v) = Some sstart /\
    (sstart <= d <= sstart + simulation_days v)%Z /\
    new_id = Some id /\
    check_new new_id new_val = Ok val /\
    rows1 = rows ++ [{| name := id; date := isoformat d; value := val |}].
Proof.
  unfold add_row, parse_date.
  destruct new_date as [text|]; [|discriminate].
  destruct (fromisoformat text) as [d|] eqn:Hd; [|discriminate].
  destruct (fromisoformat (start_date v)) as [sstart|] eqn:Hs; [|discriminate]. simpl.
  destruct ((d <? sstart)%Z || (sstart + simulation_days v <? d)%Z) eqn:Hwin; [discriminate|].
  apply orb_false_elim in Hwin as [Hlo Hhi]. apply Z.ltb_ge in Hlo, Hhi.
  destruct (check_new new_id new_val) as [val|e] eqn:Hcheck; [|discriminate]. simpl.
  intros [= <-].
  assert (Hid : exists id, new_id = Some id).
  { destruct (check_new_ok _ _ _ Hcheck) as [[H _] | [[H _] | [[H | [H | [H | H]]] _]]];
      eauto. }
  destruct Hid as [id ->].
  exists text, id, d, sstart, val.
  split; [reflexivity|]. split; [exact Hd|]. split; [reflexivity|].
  split; [split; [exact Hlo | exact Hhi]|]. split; [reflexivity|].
  split; reflexivity.
Qed.

(** X18.  An event is added only if its date parses and lies between the
    start date and the start date plus the simulated days, both included,
    and its type and value pass the tests of the callback: the type is
    ['test-all-with-symptoms'], or ['limit-mobility'] with a value from 0 to
    100, or one of the four counted types with a value that is not
    negative.  The types ['test-with-contact-tracing'] and
    ['test-only-severe-symptoms'] are among those never added. *)
Theorem interventions_callback_add_only_if (reset_clicks : option Z) (clicks : Z)
    (rows : list TableRow) (new_date new_id : option string) (new_val : option Z)
    (v : Variables) (out : list Row) :
  fst (interventions_callback INTERVENTIONS default_interventions fromisoformat isoformat
         int (Some "new-intervention-add") reset_clicks (Some clicks) rows
         new_date new_id new_val v) = Ok out ->
  (exists (text : string) (d sstart : Z),
     new_date = Some text /\ fromisoformat text = Some d /\
     fromisoformat (start_date v) = Some sstart /\
     (sstart <= d <= sstart + simulation_days v)%Z) /\
  (new_id = Some "test-all-with-symptoms" \/
   (new_id = Some "limit-mobility" /\ exists x, new_val = Some x /\ (0 <= x <= 100)%Z) \/
   ((new_id = Some "limit-mass-gatherings" \/ new_id = Some "import-infections" \/
     new_id = Some "build-new-icu-units" \/ new_id = Some "build-new-hospital-beds") /\
    exists x, new_val = Some x /\ (0 <= x)%Z)) /\
  new_id <> Some "test-with-contact-tracing" /\
  new_id <> Some "test-only-severe-symptoms".
Proof.
  rewrite interventions_callback_add.
  destruct (add_row fromisoformat isoformat rows new_date new_id new_val v) as [rows1|e] eqn:Hadd;
    [|discriminate].
  intros _.
  destruct (add_row_ok _ _ _ _ _ _ Hadd)
    as (text & id & d & sstart & val & Hdate & Hd & Hs & Hwin & Hid & Hcheck & _).
  split; [now exists text, d, sstart|].
  destruct (check_new_ok _ _ _ Hcheck)
    as [[H _] | [[H (x & Hx & Hr & _)] | [H (x & Hx & Hr & _)]]].
  - split; [now left|]. rewrite H. split; discriminate.
  - split; [right; left; split; [exact H | now exists x]|]. rewrite H. split; discriminate.
  - split; [right; right; split; [exact H | now exists x]|].
    destruct H as [H | [H | [H | H]]]; rewrite H; split; discriminate.
Qed.

(** X19.  What the callback stores when a change of the table or a new
    event is saved: the interventions are in the order of their dates, each
    is a list of three elements whose value is not a string, and the rows
    returned are the rows of what was stored.  After a change of the table
    the stored types and dates are those of the rows of the table; after a
    new event there is one intervention more than there were rows. *)
Theorem interventions_callback_saved (triggered : option string)
    (reset_clicks : option Z) (clicks : Z) (add_intervention_clicks : option Z)
    (rows : list TableRow) (new_date new_id : option string) (new_val : option Z)
    (v : Variables) (out : list Row) :
  (triggered = Some "interventions-table" \/
   (triggered = Some "new-intervention-add" /\ add_intervention_clicks = Some clicks)) ->
  let r := interventions_callback INTERVENTIONS default_interventions fromisoformat
             isoformat int triggered reset_clicks add_intervention_clicks rows
             new_date new_id new_val v in
  fst r = Ok out ->
  let ivs := interventions (snd r) in
  StronglySorted (key_le iv1) ivs /\
  Forall stored_iv ivs /\
  out = interventions_to_rows INTERVENTIONS ivs /\
  (triggered = Some "interventions-table" ->
     (fun iv => (iv0 iv, iv1 iv)) <$> ivs ≡ₚ (fun r => (name r, date r)) <$> rows) /\
  (triggered = Some "new-intervention-add" -> length ivs = S (length rows)).
Proof.
  assert (Hsave : forall rows1 ivs,
            rows_to_ivs int (sorted date rows1) = Ok ivs ->
            StronglySorted (key_le iv1) ivs /\ Forall stored_iv ivs /\
            (fun iv => (iv0 iv, iv1 iv)) <$> ivs ≡ₚ (fun r => (name r, date r)) <$> rows1).
  { intros rows1 ivs Hivs. destruct (rows_to_ivs_ok _ _ Hivs) as [Hk Hall].
    split; [|split; [exact Hall|]].
    - apply (sorted_by_keys date iv1 (sorted date rows1)); [|apply sorted_sorted].
      apply (f_equal (fmap snd)) in Hk. rewrite <- !list_fmap_compose in Hk.
      symmetry. exact Hk.
    - rewrite Hk. now rewrite (sorted_perm date rows1). }
  intros [-> | [-> ->]] r; subst r.
  - rewrite interventions_callback_table.
    destruct (rows_to_ivs int (sorted date rows)) as [ivs|e] eqn:Hivs; [|discriminate].
    simpl. intros [= <-]. destruct (Hsave rows ivs Hivs) as (Hs & Hall & Hp).
    split; [exact Hs|]. split; [exact Hall|]. split; [reflexivity|].
    split; [intros _; exact Hp | discriminate].
  - rewrite interventions_callback_add.
    destruct (add_row fromisoformat isoformat rows new_date new_id new_val v)
      as [rows1|e] eqn:Hadd; [|discriminate].
    destruct (rows_to_ivs int (sorted date rows1)) as [ivs|e] eqn:Hivs; [|discriminate].
    simpl. intros [= <-]. destruct (Hsave rows1 ivs Hivs) as (Hs & Hall & Hp).
    split; [exact Hs|]. split; [exact Hall|]. split; [reflexivity|].
    split; [discriminate|]. intros _.
    destruct (add_row_ok _ _ _ _ _ _ Hadd) as (_ & id & d & _ & val & _ & _ & _ & _ & _ & _ & ->).
    apply Permutation_length in Hp. rewrite !length_fmap in Hp. rewrite Hp.
    rewrite length_app. simpl. apply Nat.add_1_r.
Qed.

(** X20.  A new event that is accepted is stored: the interventions then
    hold the list of its type, its date in ISO format and its value, the
    value being [None] for ['test-all-with-symptoms'] whatever was typed,
    and the number typed otherwise. *)
Theorem interventions_callback_add_stored (reset_clicks : option Z) (clicks : Z)
    (rows : list TableRow) (text id : string) (d : Z) (new_val : option Z)
    (v : Variables) (out : list Row) :
  fromisoformat text = Some d ->
  let r := interventions_callback INTERVENTIONS default_interventions fromisoformat
             isoformat int (Some "new-intervention-add") reset_clicks (Some clicks) rows
             (Some text) (Some id) new_val v in
  fst r = Ok out ->
  {| iv0 := id; iv1 := isoformat d;
     iv_rest := [if bool_decide (id = "test-all-with-symptoms") then PyNone
                 else match new_val with Some x => PyInt x | None => PyNone end] |}
  ∈ interventions (snd r).
Proof.
  intros Hd r. subst r. rewrite interventions_callback_add.
  destruct (add_row fromisoformat isoformat rows (Some text) (Some id) new_val v)
    as [rows1|e] eqn:Hadd; [|discriminate].
  destruct (rows_to_ivs int (sorted date rows1)) as [ivs|e] eqn:Hivs; [|discriminate].
  simpl. intros _.
  destruct (add_row_ok _ _ _ _ _ _ Hadd)
    as (text' & id' & d' & _ & val & [= <-] & Hd' & _ & _ & [= <-] & Hcheck & ->).
  rewrite Hd in Hd'. injection Hd' as <-.
  set (new := {| name := id; date := isoformat d; value := val |}) in *.
  assert (Hval : val = if bool_decide (id = "test-all-with-symptoms") then PyNone
                       else match new_val with Some x => PyInt x | None => PyNone end).
  { destruct (check_new_ok _ _ _ Hcheck)
      as [[[= ->] ->] | [[[= ->] (x & -> & _ & ->)] | [H (x & -> & _ & ->)]]];
      try reflexivity.
    rewrite bool_decide_eq_false_2; [reflexivity|].
    destruct H as [[= ->] | [[= ->] | [[= ->] | [= ->]]]]; discriminate. }
  assert (Hconv : converted val).
  { rewrite Hval. intros s. destruct (bool_decide _); [discriminate|].
    destruct new_val; discriminate. }
  assert (Hin : new ∈ sorted date (rows ++ [new])).
  { rewrite sorted_perm. apply elem_of_app. right. now left. }
  revert Hin Hivs. generalize (sorted date (rows ++ [new])). clear Hadd.
  intros l. revert ivs. induction l as [|r l IH]; intros ivs Hin Hivs.
  - now apply elem_of_nil in Hin.
  - simpl in Hivs.
    destruct (match value r with
              | PyStr s => match int s with Some n => Ok (PyInt n) | None => Raise ValueError end
              | val => Ok val
              end) as [val'|e] eqn:Hv; simpl in Hivs; [|discriminate].
    destruct (rows_to_ivs int l) as [ivs'|e] eqn:Hl; simpl in Hivs; [|discriminate].
    injection Hivs as <-.
    apply elem_of_cons in Hin as [<- | Hin]; apply elem_of_cons.
    + left. assert (Hsame : val' = val).
      { subst new. simpl in Hv. destruct val; try (now injection Hv).
        exfalso. exact (Hconv s eq_refl). }
      rewrite Hsame, <- Hval. reflexivity.
    + right. exact (IH ivs' Hin eq_refl).
Qed.

(** X21.  The reset button restores the default interventions and returns
    their rows, whatever the table and the fields of the new event hold,
    unreadable values included. *)
Theorem interventions_callback_reset (clicks : Z) (add_intervention_clicks : option Z)
    (rows : list TableRow) (new_date new_id : option string) (new_val : option Z)
    (v : Variables) :
  interventions_callback INTERVENTIONS default_interventions fromisoformat isoformat int
    (Some "interventions-reset-defaults") (Some clicks) add_intervention_clicks rows
    new_date new_id new_val v
  = (Ok (interventions_to_rows INTERVENTIONS default_interventions),
     set_interventions default_interventions v).
Proof.
  unfold interventions_callback.
  rewrite (bool_decide_eq_true_2 (is_Some (Some clicks))) by eauto.
  rewrite (bool_decide_eq_true_2
             (Some "interventions-reset-defaults" = Some "interventions-reset-defaults"))
    by reflexivity.
  rewrite (bool_decide_eq_false_2
             (Some "interventions-reset-defaults" = Some "new-intervention-add"))
    by discriminate.
  rewrite andb_false_r. reflexivity.
Qed.

Lemma omap_fmap_id {A B : Type} (f : A -> option B) (h : B -> A) (l : list B) :
  (forall b, b ∈ l -> f (h b) = Some b) -> omap f (h <$> l) = l.
Proof.
  induction l as [|b l IH]; intros Hl; [reflexivity|].
  rewrite fmap_cons. simpl. rewrite (Hl b) by now left.
  f_equal. apply IH. intros c Hc. apply Hl. now right.
Qed.

Lemma to_row_again (iv : Iv) (r : Row) :
  to_row INTERVENTIONS iv = Some r ->
  to_row INTERVENTIONS
    {| iv0 := row_name r; iv1 := row_date r; iv_rest := [row_value r] |} = Some r.
Proof.
  unfold to_row. destruct (find_intervention INTERVENTIONS (iv0 iv)) as [i|] eqn:Hf;
    [|discriminate].
  intros [= <-]. simpl.
  destruct (find_intervention_some _ _ Hf) as [_ Ht]. rewrite Ht, Hf. simpl.
  now rewrite Ht.
Qed.

(** X22.  Saving the table as it was shown changes nothing on the screen:
    when no stored value is a string, sending back the rows of
    [interventions_to_rows] with the table as trigger returns the same rows,
    and they are the rows of what is then stored. *)
Theorem interventions_callback_round_trip (reset_clicks add_intervention_clicks : option Z)
    (new_date new_id : option string) (new_val : option Z) (v : Variables) :
  Forall (fun iv => forall s rest, iv_rest iv <> PyStr s :: rest) (interventions v) ->
  let shown := interventions_to_rows INTERVENTIONS (interventions v) in
  let r := interventions_callback INTERVENTIONS default_interventions fromisoformat
             isoformat int (Some "interventions-table") reset_clicks
             add_intervention_clicks (table_row <$> shown) new_date new_id new_val v in
  fst r = Ok shown /\
  interventions_to_rows INTERVENTIONS (interventions (snd r)) = shown.
Proof.
  intros Hplain shown r. subst r. rewrite interventions_callback_table.
  assert (Hshown : forall r, r ∈ shown -> exists iv,
            iv ∈ interventions v /\ to_row INTERVENTIONS iv = Some r).
  { intros r Hr. apply list_elem_of_omap in Hr as (iv & Hiv & Hrow).
    rewrite sorted_perm in Hiv. now exists iv. }
  assert (Hsorted : StronglySorted (key_le row_date) shown).
  { apply (omap_sorted iv1); [|apply sorted_sorted].
    intros iv r Hr. apply to_row_some in Hr as (i & _ & _ & Hd & _). exact Hd. }
  assert (Hconv : Forall (fun r => converted (value r)) (table_row <$> shown)).
  { apply Forall_fmap, Forall_forall. intros r Hr. simpl.
    destruct (Hshown r Hr) as (iv & Hiv & Hrow).
    apply to_row_some in Hrow as (i & _ & _ & _ & _ & Hv & _).
    rewrite Forall_forall in Hplain. specialize (Hplain iv Hiv).
    rewrite Hv. intros s Hs. destruct (iv_rest iv) as [|x rest]; [discriminate|].
    apply (Hplain s rest). now f_equal. }
  rewrite (sorted_of_sorted date (table_row <$> shown)).
  2:{ apply (sorted_by_keys row_date date shown); [|exact Hsorted].
      rewrite <- list_fmap_compose. reflexivity. }
  rewrite (rows_to_ivs_plain _ Hconv). rewrite <- list_fmap_compose. simpl.
  set (h := (fun r : TableRow => {| iv0 := name r; iv1 := date r; iv_rest := [value r] |})
            ∘ table_row).
  assert (Hrows : interventions_to_rows INTERVENTIONS (h <$> shown) = shown).
  { unfold interventions_to_rows. rewrite (sorted_of_sorted iv1 (h <$> shown)).
    - apply omap_fmap_id. intros r Hr. destruct (Hshown r Hr) as (iv & _ & Hrow).
      exact (to_row_again iv r Hrow).
    - apply (sorted_by_keys row_date iv1 shown); [|exact Hsorted].
      rewrite <- list_fmap_compose. reflexivity. }
  split; [now rewrite Hrows | exact Hrows].
Qed.

End InterventionsProperties.

(** * The further properties on the samples *)

Section MoreSamples.

Import Sample.

(** X4 on the sample: three reports over one second, two of them written. *)
Lemma throttle_rate_witness :
  Forall unforced (actions (three_reports RaisesInterrupted)) /\
  ((inject_Z (Z.of_nat
      (added (at_100 unbound ∅)
         (world (sim_steps five_minutes "sim45" (actions (three_reports RaisesInterrupted))
                   {| world := at_100 unbound ∅; last_results := None |})))) - 1)
   * (1 # 2) <= total_elapsed (actions (three_reports RaisesInterrupted)))%Q.
Proof.
  assert (H : Forall unforced (actions (three_reports RaisesInterrupted))).
  { repeat constructor; simpl; lra. }
  split; [exact H|].
  apply (throttle_rate five_minutes "sim45" (actions (three_reports RaisesInterrupted))
           {| world := at_100 unbound ∅; last_results := None |}); [reflexivity | exact H].
Defined.

(** X6 on the sample: job-a is started, then job-b at second 103. *)
Lemma relaunch_kills_previous_witness :
  cache (snd (run_simulation_callback five_minutes false set_variable cached_frame
                None 45 "job-b"
                (with_clock 103
                   (snd (run_simulation_callback five_minutes false set_variable
                           cached_frame (Some 1%Z) 45 "job-a" (at_100 unbound ∅))))))
    !! kill_key "job-a" = Some (Flag true, (103 + five_minutes)%Q).
Proof.
  destruct (relaunch_kills_previous five_minutes false set_variable cached_frame
              sample_set_variable_thread_id (Some 1%Z) None 45 45 "job-a" "job-b" 103
              (at_100 unbound ∅)) as (_ & _ & Hkill & _).
  - reflexivity.
  - vm_compute. reflexivity.
  - vm_compute. reflexivity.
  - discriminate.
  - exact Hkill.
Defined.

(** X7 on the sample: the run ends at second 101, the poll comes at 105. *)
Lemma finished_run_poll_witness :
  fst (update_simulation_results hash
         {| process_pool := ∅;
            cache := cache (snd (run hash five_minutes job_a pid_a
                                   (three_reports (Returns 4%Z)) (at_100 unbound ∅)));
            session := bound; started := []; clock := 105; trace := [] |})
  = Outputs (Frame 4%Z) true.
Proof.
  apply (finished_run_poll hash five_minutes job_a pid_a
           (actions (three_reports (Returns 4%Z))) 4%Z (at_100 unbound ∅) _ "job-a").
  - vm_compute. reflexivity.
  - reflexivity.
  - vm_compute. reflexivity.
  - vm_compute. reflexivity.
  - vm_compute. reflexivity.
Defined.


(** X10 on a sample: the English link, followed twice. *)
Lemma url_callback_twice_witness :
  fst (Url.url_callback None true (Some "/en") (Some "fi")) <> Url.AttributeError /\
  Url.url_callback None true (Some "/en")
    (snd (Url.url_callback None true (Some "/en") (Some "fi")))
  = (Url.PreventUpdate, Some "en").
Proof.
  split; [discriminate|].
  apply (url_callback_twice None true (Some "/en") (Some "fi")). discriminate.
Defined.

(** X11 on a sample: one slash before and two after. *)
Lemma url_callback_slashes_witness :
  Url.url_callback None true (Some "/fi//") (Some "en") = (Url.Page, Some "fi").
Proof.
  apply (url_callback_slashes None "fi" 1 2 (Some "en")).
  - now left.
  - now right.
  - discriminate.
Defined.

(** X12 on a sample: the prefix of a deployment under a path. *)
Lemma url_callback_prefix_witness :
  Url.url_callback (Some "/reina") true (Some "/reina/en") None
  = Url.url_callback None true (Some "/en") None.
Proof.
  destruct (url_callback_prefix "/reina" "/en" true "/en" None) as [H _];
    [discriminate | exact H].
Defined.

End MoreSamples.

Section PageSamples.

Import Interventions PageSample.

(** X16 on the sample: the two stored interventions in either order. *)
Lemma interventions_to_rows_permutation_witness :
  interventions_to_rows INTERVENTIONS [mobility; imports]
  = interventions_to_rows INTERVENTIONS [imports; mobility].
Proof.
  apply interventions_to_rows_permutation.
  - apply Permutation_swap.
  - simpl. apply NoDup_cons. split; [|apply NoDup_singleton].
    intros H. apply list_elem_of_singleton in H. discriminate.
Defined.

(** X17 on the sample: a date after the simulated days. *)
Lemma interventions_callback_raise_witness :
  snd (interventions_callback INTERVENTIONS defaults fromisoformat isoformat int
         (Some "new-intervention-add") None (Some 1%Z) edited
         (Some "2020-12-24") (Some "limit-mobility") (Some 7%Z) stored)
  = stored.
Proof.
  apply (interventions_callback_raise INTERVENTIONS defaults fromisoformat isoformat int
           (Some "new-intervention-add") None (Some 1%Z) edited
           (Some "2020-12-24") (Some "limit-mobility") (Some 7%Z) stored PreventUpdate).
  vm_compute. reflexivity.
Defined.

(** X18 on the sample: a limit of 50 on the first of March. *)
Lemma interventions_callback_add_only_if_witness :
  fst (interventions_callback INTERVENTIONS defaults fromisoformat isoformat int
         (Some "new-intervention-add") None (Some 1%Z) [] (Some "2020-03-01")
         (Some "limit-mobility") (Some 50%Z) stored)
  = Ok (interventions_to_rows INTERVENTIONS
          [{| iv0 := "limit-mobility"; iv1 := "2020-03-01"; iv_rest := [PyInt 50] |}]) /\
  exists (text : string) (d sstart : Z),
    Some "2020-03-01" = Some text /\ fromisoformat text = Some d /\
    fromisoformat (start_date stored) = Some sstart /\
    (sstart <= d <= sstart + simulation_days stored)%Z.
Proof.
  assert (H : fst (interventions_callback INTERVENTIONS defaults fromisoformat isoformat int
                     (Some "new-intervention-add") None (Some 1%Z) [] (Some "2020-03-01")
                     (Some "limit-mobility") (Some 50%Z) stored)
              = Ok (interventions_to_rows INTERVENTIONS
                      [{| iv0 := "limit-mobility"; iv1 := "2020-03-01";
                          iv_rest := [PyInt 50] |}])).
  { vm_compute. reflexivity. }
  split; [exact H|].
  exact (proj1 (interventions_callback_add_only_if INTERVENTIONS defaults fromisoformat
                  isoformat int None 1%Z [] (Some "2020-03-01") (Some "limit-mobility")
                  (Some 50%Z) stored _ H)).
Defined.

(** X19 on the sample: the edited table is saved. *)
Lemma interventions_callback_saved_witness :
  fst (interventions_callback INTERVENTIONS defaults fromisoformat isoformat int
         (Some "interventions-table") None None edited None None None stored)
  = Ok (interventions_to_rows INTERVENTIONS
          [imports;
           {| iv0 := "limit-mobility"; iv1 := "2020-03-15"; iv_rest := [PyInt 50] |}]) /\
  StronglySorted (key_le iv1)
    (interventions
       (snd (interventions_callback INTERVENTIONS defaults fromisoformat isoformat int
               (Some "interventions-table") None None edited None None None stored))).
Proof.
  assert (H : fst (interventions_callback INTERVENTIONS defaults fromisoformat isoformat int
                     (Some "interventions-table") None None edited None None None stored)
              = Ok (interventions_to_rows INTERVENTIONS
                      [imports;
                       {| iv0 := "limit-mobility"; iv1 := "2020-03-15";
                          iv_rest := [PyInt 50] |}])).
  { vm_compute. reflexivity. }
  split; [exact H|].
  exact (proj1 (interventions_callback_saved INTERVENTIONS defaults fromisoformat isoformat
                  int (Some "interventions-table") None 0%Z None edited None None None
                  stored _ (or_introl eq_refl) H)).
Defined.

(** X20 on the sample: the new limit is among the stored interventions. *)
Lemma interventions_callback_add_stored_witness :
  fromisoformat "2020-03-01" = Some 737485%Z /\
  {| iv0 := "limit-mobility"; iv1 := "2020-03-01"; iv_rest := [PyInt 50] |}
  ∈ interventions
      (snd (interventions_callback INTERVENTIONS defaults fromisoformat isoformat int
              (Some "new-intervention-add") None (Some 1%Z) edited (Some "2020-03-01")
              (Some "limit-mobility") (Some 50%Z) stored)).
Proof.
  split; [reflexivity|].
  apply (interventions_callback_add_stored INTERVENTIONS defaults fromisoformat isoformat
           int None 1%Z edited "2020-03-01" "limit-mobility" 737485%Z (Some 50%Z) stored
           (interventions_to_rows INTERVENTIONS
              [imports;
               {| iv0 := "limit-mobility"; iv1 := "2020-03-01"; iv_rest := [PyInt 50] |};
               {| iv0 := "limit-mobility"; iv1 := "2020-03-15"; iv_rest := [PyInt 50] |}])).
  - reflexivity.
  - vm_compute. reflexivity.
Defined.

(** X22 on the sample: the table of the stored interventions, sent back. *)
Lemma interventions_callback_round_trip_witness :
  Forall (fun iv => forall s rest, iv_rest iv <> PyStr s :: rest) (interventions stored) /\
  fst (interventions_callback INTERVENTIONS defaults fromisoformat isoformat int
         (Some "interventions-table") None None
         (table_row <$> interventions_to_rows INTERVENTIONS (interventions stored))
         None None None stored)
  = Ok (interventions_to_rows INTERVENTIONS (interventions stored)).
Proof.
  assert (H : Forall (fun iv => forall s rest, iv_rest iv <> PyStr s :: rest)
                (interventions stored)).
  { repeat constructor; discriminate. }
  split; [exact H|].
  exact (proj1 (interventions_callback_round_trip INTERVENTIONS defaults fromisoformat
                  isoformat int None None None None None stored H)).
Defined.

End PageSamples.
